(** * shiny-command-line: a shallow embedding of [src/index.ts]

    The module formats a shell command for display.  [parseCommand] classifies
    the entries returned by the tokenizer of the [shell-quote] package,
    [prettifyCommand] lays the classified parts out on several lines,
    [shouldPrettifyCommand] is the cheap decision helper and
    [getCommandPreview] composes the two.

    JavaScript strings are modelled by [string]: a sequence of code units, of
    which the model keeps the 8-bit ones.  Numbers that hold widths are
    integers ([Z]).  The two packages the module imports, [shell-quote] and
    [chalk], are parameters of the development. *)

From Stdlib Require Import String Ascii List ZArith Lia Bool Arith.
Import ListNotations.

Open Scope string_scope.
Open Scope list_scope.
Open Scope nat_scope.

Notation "a +++ b" := (String.append a b) (at level 60, right associativity).

(** ** JavaScript string primitives used by the source *)

Definition backslash : ascii := "092"%char.
Definition newline : string := String "010"%char "".

(** The line-continuation marker [" \\"] of the source: a space and one
    backslash. *)
Definition continuation : string := String " "%char (String backslash "").

(** [s.startsWith(p)] *)
Definition startsWith (s p : string) : bool := String.prefix p s.

(** [s.includes(sub)] *)
Fixpoint includes (s sub : string) : bool :=
  String.prefix sub s ||
  match s with
  | EmptyString => false
  | String _ s' => includes s' sub
  end.

(** A non-empty string is truthy. *)
Definition truthy (s : string) : bool :=
  match s with
  | EmptyString => false
  | String _ _ => true
  end.

Definition code (c : ascii) : nat := nat_of_ascii c.

(** [\d] *)
Definition isDigit (c : ascii) : bool := (48 <=? code c) && (code c <=? 57).

(** [\w]: letters, digits and the underscore. *)
Definition isWordChar (c : ascii) : bool :=
  isDigit c
  || ((65 <=? code c) && (code c <=? 90))
  || ((97 <=? code c) && (code c <=? 122))
  || (code c =? 95).

(** White space as [String.prototype.trim] sees it, among 8-bit code units:
    TAB, LF, VT, FF, CR, space and the no-break space. *)
Definition isWhiteSpace (c : ascii) : bool :=
  ((9 <=? code c) && (code c <=? 13)) || (code c =? 32) || (code c =? 160).

Fixpoint trimStart (s : string) : string :=
  match s with
  | EmptyString => EmptyString
  | String c s' => if isWhiteSpace c then trimStart s' else s
  end.

Fixpoint trimEnd (s : string) : string :=
  match s with
  | EmptyString => EmptyString
  | String c s' =>
      let t := trimEnd s' in
      if isWhiteSpace c && negb (truthy t) then EmptyString else String c t
  end.

(** [s.trim()] *)
Definition trim (s : string) : string := trimEnd (trimStart s).

(** [s.match(/^-\d/)], as a truth value. *)
Definition matchDashDigit (s : string) : bool :=
  match s with
  | String "-"%char (String d _) => isDigit d
  | _ => false
  end.

(** [s.match(/^https?:\/\//)], as a truth value. *)
Definition matchHttp (s : string) : bool :=
  String.prefix "http://" s || String.prefix "https://" s.

(** [lines.join(sep)] *)
Fixpoint join (sep : string) (lines : list string) : string :=
  match lines with
  | [] => EmptyString
  | [l] => l
  | l :: rest => l +++ sep +++ join sep rest
  end.

(** [s.length], as a number. *)
Definition len (s : string) : Z := Z.of_nat (String.length s).

(** *** The global regular expression [/--\w+/g]

    [takeWord s] splits off the longest prefix of word characters ([\w*],
    greedy).  [matchLongAt s] is a match of [--\w+] anchored at the start of
    [s]: the matched text and what follows it.  [matchAllLong] is
    [s.match(/--\w+/g) || []]: the search restarts after each match, and one
    code unit further where nothing matches. *)

Fixpoint takeWord (s : string) : string * string :=
  match s with
  | EmptyString => (EmptyString, EmptyString)
  | String c s' =>
      if isWordChar c
      then let (w, rest) := takeWord s' in (String c w, rest)
      else (EmptyString, s)
  end.

Definition matchLongAt (s : string) : option (string * string) :=
  match s with
  | String "-"%char (String "-"%char s') =>
      let (w, rest) := takeWord s' in
      if truthy w then Some ("--" +++ w, rest) else None
  | _ => None
  end.

Fixpoint matchAllLongFrom (fuel : nat) (s : string) : list string :=
  match fuel with
  | O => []
  | S fuel' =>
      match matchLongAt s with
      | Some (m, rest) => m :: matchAllLongFrom fuel' rest
      | None =>
          match s with
          | EmptyString => []
          | String _ s' => matchAllLongFrom fuel' s'
          end
      end
  end.

Definition matchAllLong (s : string) : list string :=
  matchAllLongFrom (String.length s) s.

(** ** Exceptions

    The only code that can throw is the tokenizer; [prettifyCommand] runs its
    body under [try] and the handler returns the command. *)

Inductive Result (A : Type) : Type :=
| Ok (a : A)
| Throw (error : string).
Arguments Ok {A} a.
Arguments Throw {A} error.

Definition bind {A B : Type} (r : Result A) (k : A -> Result B) : Result B :=
  match r with
  | Ok a => k a
  | Throw e => Throw e
  end.

Notation "x <- r ;; k" := (bind r (fun x => k))
  (at level 61, r at next level, right associativity).

(** [try { body } catch (_error) { handler }] *)
Definition tryCatch {A : Type} (body : Result A) (handler : string -> A) : A :=
  match body with
  | Ok a => a
  | Throw e => handler e
  end.

(** ** The imported packages *)

(** An entry of the array returned by [parse] of [shell-quote]: a string, an
    operator object [{op}], a glob [{op: "glob", pattern}] or a comment
    [{comment}]. *)
Inductive ParseEntry : Type :=
| Word (s : string)
| Op (op : string)
| Glob (pattern : string)
| Comment (text : string).

Definition Tokenizer : Type := string -> Result (list ParseEntry).

(** What the source uses of [chalk]: the colour level and seven styles. *)
Record Chalk : Type := {
  level : nat;
  cyan_bold : string -> string;
  yellow_bold : string -> string;
  green : string -> string;
  blue : string -> string;
  magenta : string -> string;
  blue_underline : string -> string;
  white : string -> string
}.

(** ** Data model *)

Inductive PartType : Type := Command | Argument | Operator.

Definition PartType_eqb (a b : PartType) : bool :=
  match a, b with
  | Command, Command | Argument, Argument | Operator, Operator => true
  | _, _ => false
  end.

(** [CommandPart]; an option flag that the source leaves out is [false]. *)
Record CommandPart : Type := {
  type : PartType;
  value : string;
  isLongOption : bool;
  isShortOption : bool
}.

(** [PrettifyOptions]: every field may be left out. *)
Record PrettifyOptions : Type := {
  maxWidth : option Z;
  indent : option string;
  flagsOnNewLine : option bool;
  disableColors : option bool
}.

Record PreviewOptions : Type := {
  showPretty : option bool;
  pv_maxWidth : option Z;
  pv_indent : option string;
  pv_flagsOnNewLine : option bool;
  pv_disableColors : option bool
}.

Record CommandPreview : Type := {
  original : string;
  pretty : option string;
  shouldPrettify : bool
}.

(** A destructuring default: [x = d] binds [d] when the field is undefined. *)
Definition withDefault {A : Type} (d : A) (o : option A) : A :=
  match o with
  | Some a => a
  | None => d
  end.

Definition noOptions : PrettifyOptions :=
  {| maxWidth := None; indent := None; flagsOnNewLine := None; disableColors := None |}.

(** The state of the layout loop: the lines pushed so far and the line being
    built. *)
Record LayoutState : Type := {
  result : list string;
  currentLine : string
}.

Definition push (st : LayoutState) (line : string) (next : string) : LayoutState :=
  {| result := result st ++ [line]; currentLine := next |}.

Definition setLine (st : LayoutState) (line : string) : LayoutState :=
  {| result := result st; currentLine := line |}.

(** ** The functions of [src/index.ts] *)

Section Source.

Variable chalk : Chalk.
Variable parse : Tokenizer.

(** One iteration of the loop of [parseCommand]. *)
Definition classifyEntry (parts : list CommandPart) (part : ParseEntry)
  : list CommandPart :=
  match part with
  | Word s =>
      if startsWith s "--" then
        parts ++ [{| type := Argument; value := s;
                     isLongOption := true; isShortOption := false |}]
      else if startsWith s "-" && (1 <? String.length s) && negb (matchDashDigit s) then
        parts ++ [{| type := Argument; value := s;
                     isLongOption := false; isShortOption := true |}]
      else
        let isCommand :=
          (List.length parts =? 0)
          || forallb (fun p => PartType_eqb (type p) Operator) parts in
        parts ++ [{| type := if isCommand then Command else Argument; value := s;
                     isLongOption := false; isShortOption := false |}]
  | Op op =>
      parts ++ [{| type := Operator; value := op;
                   isLongOption := false; isShortOption := false |}]
  | Glob _ =>
      parts ++ [{| type := Operator; value := "glob";
                   isLongOption := false; isShortOption := false |}]
  | Comment _ => parts
  end.

Definition classify (parsed : list ParseEntry) : list CommandPart :=
  fold_left classifyEntry parsed [].

Definition parseCommand (command : string) : Result (list CommandPart) :=
  parsed <- parse command ;;
  Ok (classify parsed).

Definition applyHighlighting (part : CommandPart) : string :=
  if level chalk =? 0 then value part
  else
    match type part with
    | Command => cyan_bold chalk (value part)
    | Operator => yellow_bold chalk (value part)
    | Argument =>
        if isLongOption part then green chalk (value part)
        else if isShortOption part then green chalk (value part)
        else if includes (value part) "/" || includes (value part) (String backslash "")
        then blue chalk (value part)
        else if includes (value part) "=" then magenta chalk (value part)
        else if matchHttp (value part) then blue_underline chalk (value part)
        else white chalk (value part)
    end.

(** The part's text as the layout prints it:
    [!disableColors ? applyHighlighting(part) : part.value]. *)
Definition rendered (disableColors : bool) (part : CommandPart) : string :=
  if negb disableColors then applyHighlighting part else value part.

(** The body of the [for] loop of [prettifyCommand] at index [i]: the new
    state, and the value of [i] when the body ends (the body itself increments
    [i] when it consumes the next part). *)
Definition loopBody (maxWidth : Z) (indent : string)
    (flagsOnNewLine disableColors : bool)
    (parts : list CommandPart) (i : nat) (st : LayoutState) : LayoutState * nat :=
  match nth_error parts i with
  | None => (st, i)
  | Some part =>
      let isLastPart := i =? List.length parts - 1 in
      let partValue := rendered disableColors part in
      match type part with
      | Command => (setLine st partValue, i)
      | Operator =>
          if (value part =? "&&")%string || (value part =? "||")%string
             || (value part =? "|")%string
          then (push st (currentLine st +++ " " +++ partValue) "", i)
          else if (value part =? ";")%string
          then (push st (currentLine st +++ partValue) "", i)
          else (setLine st (currentLine st +++ " " +++ partValue), i)
      | Argument =>
          let argWithSpace := " " +++ partValue in
          let st1 :=
            if flagsOnNewLine && (isLongOption part || isShortOption part) then
              if truthy (trim (currentLine st))
              then push st (currentLine st +++ continuation) (indent +++ partValue)
              else setLine st (currentLine st +++ argWithSpace)
            else
              if (len (currentLine st) + len argWithSpace >? maxWidth)%Z
                 && (len (currentLine st) >? 0)%Z
              then push st (currentLine st +++ continuation) (indent +++ partValue)
              else setLine st (currentLine st +++ argWithSpace) in
          if isLongOption part && negb isLastPart && negb flagsOnNewLine then
            match nth_error parts (i + 1) with
            | Some nextPart =>
                if PartType_eqb (type nextPart) Argument
                   && negb (isLongOption nextPart) && negb (isShortOption nextPart)
                then
                  let nextPartValue := rendered disableColors nextPart in
                  let nextArgWithSpace := " " +++ nextPartValue in
                  if (len (currentLine st1) + len nextArgWithSpace >? maxWidth)%Z
                  then (push st1 (currentLine st1 +++ continuation)
                                 (indent +++ nextPartValue), i + 1)
                  else (st1, i)
                else (st1, i)
            | None => (st1, i)
            end
          else (st1, i)
      end
  end.

Definition initial : nat * LayoutState := (0, {| result := []; currentLine := "" |}).

(** One turn of [for (let i = 0; i < parts.length; i++)]: the test, the body
    and the increment.  A configuration is the index and the state. *)
Definition loopTurn (maxWidth : Z) (indent : string)
    (flagsOnNewLine disableColors : bool)
    (parts : list CommandPart) (c : nat * LayoutState) : nat * LayoutState :=
  let (st', i') := loopBody maxWidth indent flagsOnNewLine disableColors parts (fst c) (snd c) in
  (S i', st').

(** The loop, run for at most [fuel] turns.  Every turn advances [i], so
    [parts.length] turns are enough ([layoutLoop_exits] below). *)
Fixpoint layoutLoop (maxWidth : Z) (indent : string)
    (flagsOnNewLine disableColors : bool)
    (parts : list CommandPart) (fuel : nat) (c : nat * LayoutState)
  : nat * LayoutState :=
  match fuel with
  | O => c
  | S fuel' =>
      if fst c <? List.length parts
      then layoutLoop maxWidth indent flagsOnNewLine disableColors parts fuel'
             (loopTurn maxWidth indent flagsOnNewLine disableColors parts c)
      else c
  end.

(** The lines of the output: what was pushed, and the current line when it is
    not empty. *)
Definition finalLines (st : LayoutState) : list string :=
  if truthy (currentLine st) then result st ++ [currentLine st] else result st.

Definition prettifyCommand (command : string) (options : PrettifyOptions) : string :=
  let maxWidth := withDefault 80%Z (maxWidth options) in
  let indent := withDefault "  " (indent options) in
  let flagsOnNewLine := withDefault false (flagsOnNewLine options) in
  let disableColors := withDefault false (disableColors options) in
  tryCatch
    (parts <- parseCommand command ;;
     if List.length parts =? 0 then Ok command
     else if (len command <=? maxWidth)%Z then Ok command
     else
       let final :=
         layoutLoop maxWidth indent flagsOnNewLine disableColors parts
           (List.length parts) initial in
       Ok (join newline (finalLines (snd final))))
    (fun _error => command).

Definition shouldPrettifyCommand (command : string) (threshold : option Z) : bool :=
  let threshold := withDefault 80%Z threshold in
  (len command >? threshold)%Z
  || includes command "&&"
  || includes command "||"
  || includes command ";"
  || includes command "|"
  || (3 <? List.length (matchAllLong command)).

Definition getCommandPreview (command : string) (options : PreviewOptions)
  : CommandPreview :=
  let showPretty := withDefault false (showPretty options) in
  let maxWidth := withDefault 80%Z (pv_maxWidth options) in
  let indent := withDefault "  " (pv_indent options) in
  let flagsOnNewLine := withDefault false (pv_flagsOnNewLine options) in
  let disableColors := withDefault false (pv_disableColors options) in
  let shouldPrettify := shouldPrettifyCommand command (Some maxWidth) in
  {| original := command;
     pretty :=
       if showPretty && shouldPrettify
       then Some (prettifyCommand command
                    {| maxWidth := Some maxWidth; indent := Some indent;
                       flagsOnNewLine := Some flagsOnNewLine;
                       disableColors := Some disableColors |})
       else None;
     shouldPrettify := shouldPrettify |}.

Definition prettifyCommands (commands : list string) (options : PrettifyOptions)
  : list string :=
  map (fun cmd => prettifyCommand cmd options) commands.

End Source.

(** ** Sample instances of the imported packages

    The theorems below hold for every tokenizer and every [chalk]; the
    instances here let them be run on concrete commands. *)

Inductive Quote : Type := NoQuote | SingleQuote | DoubleQuote.

Definition flushWord (w : option string) (acc : list ParseEntry) : list ParseEntry :=
  match w with
  | Some s => acc ++ [Word s]
  | None => acc
  end.

Definition extendWord (w : option string) (c : ascii) : option string :=
  Some (withDefault "" w +++ String c "").

(** Modelled from the spec: the tokenizer, which the source imports from the
    [shell-quote] package.  After section 4.1 of the specification: it splits
    a command into words and the control operators [&&], [||], [;] and [|],
    keeps quoted text (single or double quotes) and escaped characters inside
    the word, and fails on unbalanced quotes. *)
Fixpoint scanCommand (s : string) (q : Quote) (w : option string)
    (acc : list ParseEntry) : Result (list ParseEntry) :=
  match s with
  | EmptyString =>
      match q with
      | NoQuote => Ok (flushWord w acc)
      | _ => Throw "unbalanced quote"
      end
  | String c s' =>
      match q with
      | SingleQuote =>
          if (c =? "039")%char then scanCommand s' NoQuote w acc
          else scanCommand s' SingleQuote (extendWord w c) acc
      | DoubleQuote =>
          if (c =? "034")%char then scanCommand s' NoQuote w acc
          else scanCommand s' DoubleQuote (extendWord w c) acc
      | NoQuote =>
          if isWhiteSpace c then scanCommand s' NoQuote None (flushWord w acc)
          else if (c =? "039")%char
          then scanCommand s' SingleQuote (Some (withDefault "" w)) acc
          else if (c =? "034")%char
          then scanCommand s' DoubleQuote (Some (withDefault "" w)) acc
          else if (c =? ";")%char
          then scanCommand s' NoQuote None (flushWord w acc ++ [Op ";"])
          else if (c =? "|")%char then
            match s' with
            | String "|"%char s'' =>
                scanCommand s'' NoQuote None (flushWord w acc ++ [Op "||"])
            | _ => scanCommand s' NoQuote None (flushWord w acc ++ [Op "|"])
            end
          else if (c =? "&")%char then
            match s' with
            | String "&"%char s'' =>
                scanCommand s'' NoQuote None (flushWord w acc ++ [Op "&&"])
            | _ => scanCommand s' NoQuote (extendWord w c) acc
            end
          else if (c =? backslash)%char then
            match s' with
            | String d s'' => scanCommand s'' NoQuote (extendWord w d) acc
            | EmptyString => scanCommand s' NoQuote (extendWord w c) acc
            end
          else scanCommand s' NoQuote (extendWord w c) acc
      end
  end.

Definition sampleParse : Tokenizer := fun command => scanCommand command NoQuote None [].

(** A tokenizer that also reports an opening parenthesis at the start of the
    command as the operator [(]. *)
Definition groupParse : Tokenizer :=
  fun command =>
    match command with
    | String "("%char inside => entries <- sampleParse inside ;; Ok (Op "(" :: entries)
    | _ => sampleParse command
    end.

(** A [chalk] without colour support: level 0. *)
Definition plainChalk : Chalk :=
  {| level := 0;
     cyan_bold := fun s => s; yellow_bold := fun s => s; green := fun s => s;
     blue := fun s => s; magenta := fun s => s; blue_underline := fun s => s;
     white := fun s => s |}.

Definition escape : ascii := "027"%char.

(** An ANSI styling marker: [ESC [ n m]. *)
Definition sgr (n : string) : string := String escape ("[" +++ n +++ "m").

Definition styled (on off : string) (s : string) : string := sgr on +++ s +++ sgr off.

(** Modelled from the spec: the styling facility, which the source imports
    from the [chalk] package.  After section 6 of the specification: with a
    non-zero colour level it wraps the text in ANSI styling codes. *)
Definition ansiChalk : Chalk :=
  {| level := 1;
     cyan_bold := fun s => styled "36" "39" (styled "1" "22" s);
     yellow_bold := fun s => styled "33" "39" (styled "1" "22" s);
     green := styled "32" "39";
     blue := styled "34" "39";
     magenta := styled "35" "39";
     blue_underline := fun s => styled "34" "39" (styled "4" "24" s);
     white := styled "37" "39" |}.

(** ** What the specification says, in its own words *)

(** [sub] occurs in [s] as a literal substring. *)
Definition contains (s sub : string) : Prop :=
  exists before after, s = before +++ sub +++ after.

(** A double dash followed by a word character starts here. *)
Definition startsLongOption (s : string) : bool :=
  match s with
  | String "-"%char (String "-"%char (String c _)) => isWordChar c
  | _ => false
  end.

(** The number of places of [s] where a double dash followed by one or more
    word characters starts. *)
Fixpoint countLongOptions (s : string) : nat :=
  (if startsLongOption s then 1 else 0) +
  match s with
  | EmptyString => 0
  | String _ s' => countLongOptions s'
  end.

(** The invariant of section 3 of the specification, read from left to right.
    [fresh] holds at the start and after an Operator: the first part that is
    not an Operator must then be a Command, and the parts after it, up to the
    next Operator, Arguments. *)
Fixpoint specInvariant (fresh : bool) (parts : list CommandPart) : bool :=
  match parts with
  | [] => true
  | p :: rest =>
      match type p with
      | Operator => specInvariant true rest
      | Command => fresh && specInvariant false rest
      | Argument => negb fresh && specInvariant false rest
      end
  end.

(** The option [shown] (its printed text) stands at the start of a line of
    its own, after the indent, and the line before ends with the continuation
    marker. *)
Definition onOwnLine (indent shown : string) (lines : list string) : Prop :=
  exists before previous tail after,
    lines = before ++ (previous +++ continuation) :: (indent +++ shown +++ tail) :: after.

Definition isOption (p : CommandPart) : bool := isLongOption p || isShortOption p.

Definition isOperator (p : CommandPart) : bool := PartType_eqb (type p) Operator.

Definition chars (s : string) : list ascii := list_ascii_of_string s.

(** The loop of [prettifyCommand] reaches index [i] with state [st]: some
    number of turns from the initial configuration leads there, and the body
    runs once more. *)
Definition visits (chalk : Chalk) (maxWidth : Z) (indent : string)
    (flagsOnNewLine disableColors : bool)
    (parts : list CommandPart) (i : nat) (st : LayoutState) : Prop :=
  i < List.length parts /\
  exists turns,
    layoutLoop chalk maxWidth indent flagsOnNewLine disableColors parts turns initial
    = (i, st).

(** The options of a call with the defaults filled in. *)
Definition resolved (options : PrettifyOptions) : PrettifyOptions :=
  {| maxWidth := Some (withDefault 80%Z (maxWidth options));
     indent := Some (withDefault "  " (indent options));
     flagsOnNewLine := Some (withDefault false (flagsOnNewLine options));
     disableColors := Some (withDefault false (disableColors options)) |}.

Definition layoutOptions (options : PreviewOptions) : PrettifyOptions :=
  {| maxWidth := pv_maxWidth options; indent := pv_indent options;
     flagsOnNewLine := pv_flagsOnNewLine options;
     disableColors := pv_disableColors options |}.

(** ** The layout loop, as the proofs see it *)

Definition widthOf (options : PrettifyOptions) : Z := withDefault 80%Z (maxWidth options).
Definition indentOf (options : PrettifyOptions) : string := withDefault "  " (indent options).
Definition flagsOf (options : PrettifyOptions) : bool :=
  withDefault false (flagsOnNewLine options).
Definition plainOf (options : PrettifyOptions) : bool :=
  withDefault false (disableColors options).

(** The lines that [prettifyCommand] joins for a long command. *)
Definition layoutLines (chalk : Chalk) (options : PrettifyOptions)
    (parts : list CommandPart) : list string :=
  finalLines
    (snd (layoutLoop chalk (widthOf options) (indentOf options) (flagsOf options)
            (plainOf options) parts (List.length parts) initial)).

(** One edit of the layout state: a line made of the current line and more
    text is pushed and a new line is started, or text is appended to the
    current line.  [P] holds of the pieces of text. *)
Inductive edit (P : string -> Prop) : LayoutState -> LayoutState -> Prop :=
| edit_push st x y : P x -> P y -> edit P st (push st (currentLine st +++ x) y)
| edit_append st x : P x -> edit P st (setLine st (currentLine st +++ x)).

Inductive edits (P : string -> Prop) : LayoutState -> LayoutState -> Prop :=
| edits_none st : edits P st st
| edits_more st st1 st2 : edits P st st1 -> edit P st1 st2 -> edits P st st2.

(** Every line of the state is made of text of which [P] holds. *)
Definition built (P : string -> Prop) (st : LayoutState) : Prop :=
  Forall P (result st) /\ P (currentLine st).

(** The lines [R] are pushed and the line after them starts with [L]: it is
    the current line, or it is pushed too. *)
Definition started (R : list string) (L : string) (st : LayoutState) : Prop :=
  (result st = R /\ exists tail, currentLine st = L +++ tail) \/
  (exists tail after, result st = R ++ (L +++ tail) :: after).

(** The kinds that the classifier gives: a part that is not an Operator is a
    Command when every part before it is an Operator and it is not an option,
    and an Argument otherwise. *)
Definition kindsOK (parts : list CommandPart) : Prop :=
  forall before p after,
    parts = before ++ p :: after ->
    isOperator p = false ->
    type p = if forallb isOperator before && negb (isOption p) then Command else Argument.

(** Where a code unit of the output may come from when colours are disabled. *)
Definition plainSource (parse : Tokenizer) (command : string) (options : PrettifyOptions)
    (c : ascii) : Prop :=
  In c (chars command)
  \/ (exists parts p,
        parseCommand parse command = Ok parts /\ In p parts /\ In c (chars (value p)))
  \/ In c (chars (indentOf options))
  \/ c = " "%char \/ c = backslash \/ c = "010"%char.

(** ** Sample commands and options *)

(** A part, field by field. *)
Definition part (t : PartType) (v : string) (long short : bool) : CommandPart :=
  {| type := t; value := v; isLongOption := long; isShortOption := short |}.

Definition narrow : PrettifyOptions :=
  {| maxWidth := Some 5%Z; indent := None; flagsOnNewLine := None;
     disableColors := None |}.

Definition narrowPlain : PrettifyOptions :=
  {| maxWidth := Some 5%Z; indent := None; flagsOnNewLine := None;
     disableColors := Some true |}.

Definition flagsPlain : PrettifyOptions :=
  {| maxWidth := Some 5%Z; indent := None; flagsOnNewLine := Some true;
     disableColors := Some true |}.

(** ** Vocabulary for further properties of the code *)

(** The text that an entry of the tokenizer leaves in the parts, and whether
    the part is an Operator: a comment leaves nothing, and a glob leaves the
    word [glob], the value of its [op] field. *)
Definition entryText (e : ParseEntry) : list string :=
  match e with
  | Word s => [s]
  | Op op => [op]
  | Glob _ => ["glob"]
  | Comment _ => []
  end.

Definition entryIsOperator (e : ParseEntry) : list bool :=
  match e with
  | Word _ => [false]
  | Op _ | Glob _ => [true]
  | Comment _ => []
  end.

(** The operators after which the layout starts a new line. *)
Definition breaksLine (p : CommandPart) : bool :=
  (value p =? "&&")%string || (value p =? "||")%string || (value p =? "|")%string
  || (value p =? ";")%string.



(** What the layout puts between the parts: white space and backslashes. *)
Definition isGlue (c : ascii) : bool := isWhiteSpace c || (c =? backslash)%char.

(** The text without white space and backslashes. *)
Fixpoint strip (s : string) : string :=
  match s with
  | EmptyString => EmptyString
  | String c s' => if isGlue c then strip s' else String c (strip s')
  end.

Fixpoint concatAll (texts : list string) : string :=
  match texts with
  | [] => EmptyString
  | t :: rest => t +++ concatAll rest
  end.

(** All the text of a layout state, line after line. *)
Definition flat (st : LayoutState) : string :=
  concatAll (result st) +++ currentLine st.


Definition setFlagsOnNewLine (b : bool) (options : PrettifyOptions) : PrettifyOptions :=
  {| maxWidth := maxWidth options; indent := indent options;
     flagsOnNewLine := Some b; disableColors := disableColors options |}.

Definition setDisableColors (b : bool) (options : PrettifyOptions) : PrettifyOptions :=
  {| maxWidth := maxWidth options; indent := indent options;
     flagsOnNewLine := flagsOnNewLine options; disableColors := Some b |}.

(** The values of the first [n] parts, without white space and backslashes. *)
Definition textOfParts (parts : list CommandPart) (n : nat) : string :=
  strip (concatAll (map value (firstn n parts))).

(** What the classifier records of a part in its two flags. *)
Definition flagsOK (p : CommandPart) : Prop :=
  (isLongOption p = true <->
   type p <> Operator /\ startsWith (value p) "--" = true) /\
  (isShortOption p = true <->
   type p <> Operator /\ startsWith (value p) "--" = false /\
   startsWith (value p) "-" = true /\ 1 < String.length (value p) /\
   matchDashDigit (value p) = false) /\
  (type p = Command -> isOption p = false).

(** * Proofs *)

(** ** Strings *)

Lemma append_assoc (a b c : string) : (a +++ b) +++ c = a +++ b +++ c.
Proof. induction a as [|x a IH]; simpl; [reflexivity | now rewrite IH]. Qed.

Lemma append_empty_r (a : string) : a +++ "" = a.
Proof. induction a as [|x a IH]; simpl; [reflexivity | now rewrite IH]. Qed.

Lemma length_append (a b : string) :
  String.length (a +++ b) = String.length a + String.length b.
Proof. induction a as [|x a IH]; simpl; [reflexivity | now rewrite IH]. Qed.

Lemma chars_append (a b : string) : chars (a +++ b) = chars a ++ chars b.
Proof. induction a as [|x a IH]; simpl; [reflexivity | unfold chars in *; simpl; now rewrite IH]. Qed.

Lemma truthy_true (s : string) : truthy s = true <-> s <> "".
Proof. destruct s; simpl; split; intros; congruence. Qed.

Lemma truthy_append_l (a b : string) : truthy a = true -> truthy (a +++ b) = true.
Proof. destruct a; simpl; congruence. Qed.

Lemma truthy_append_r (a b : string) : truthy b = true -> truthy (a +++ b) = true.
Proof. destruct a; simpl; congruence. Qed.

Lemma prefix_spec (p s : string) :
  String.prefix p s = true <-> exists after, s = p +++ after.
Proof.
  revert p; induction s as [|b s IH]; intros [|a p]; simpl.
  - split; [exists ""; reflexivity | reflexivity].
  - split; [discriminate | intros [after H]; discriminate].
  - split; [exists (String b s); reflexivity | reflexivity].
  - destruct (ascii_dec a b) as [->|Hab].
    + rewrite IH. split; intros [after H]; exists after; congruence.
    + split; [discriminate | intros [after H]; congruence].
Qed.

Lemma includes_spec (s sub : string) : includes s sub = true <-> contains s sub.
Proof.
  unfold contains. induction s as [|c s IH]; cbn [includes].
  - rewrite orb_false_r, prefix_spec. split.
    + intros [after H]; exists "", after; exact H.
    + intros [[|x before] [after H]]; [exists after; exact H | discriminate].
  - rewrite orb_true_iff, prefix_spec, IH. split.
    + intros [[after H] | [before [after H]]].
      * exists "", after; exact H.
      * exists (String c before), after; simpl; now rewrite H.
    + intros [[|x before] [after H]].
      * left; exists after; exact H.
      * right; exists before, after; simpl in H; congruence.
Qed.

(** ** The short-circuit and the failure handler *)

Section Proofs.

Variable chalk : Chalk.
Variable parse : Tokenizer.

Lemma parseCommand_Ok (command : string) (parsed : list ParseEntry) :
  parse command = Ok parsed -> parseCommand parse command = Ok (classify parsed).
Proof. intros H; unfold parseCommand; now rewrite H. Qed.

Lemma parseCommand_Throw (command error : string) :
  parse command = Throw error -> parseCommand parse command = Throw error.
Proof. intros H; unfold parseCommand; now rewrite H. Qed.

(** What [prettifyCommand] returns on a command that is tokenized into at
    least one part and is longer than [maxWidth]: the lines of the layout
    loop, joined. *)
Lemma prettifyCommand_long (command : string) (options : PrettifyOptions)
    (parts : list CommandPart) :
  parseCommand parse command = Ok parts ->
  parts <> [] ->
  (withDefault 80 (maxWidth options) < len command)%Z ->
  prettifyCommand chalk parse command options =
  join newline
    (finalLines
       (snd (layoutLoop chalk (withDefault 80%Z (maxWidth options))
               (withDefault "  " (indent options))
               (withDefault false (flagsOnNewLine options))
               (withDefault false (disableColors options))
               parts (List.length parts) initial))).
Proof.
  intros Hp Hne Hlong. unfold prettifyCommand. rewrite Hp. simpl.
  destruct parts as [|p parts]; [congruence|]. simpl List.length.
  replace (S (List.length parts) =? 0) with false by reflexivity.
  destruct (Z.leb_spec (len command) (withDefault 80%Z (maxWidth options))); [lia|].
  reflexivity.
Qed.

Lemma prettifyCommand_resolved (command : string) (options : PrettifyOptions) :
  prettifyCommand chalk parse command (resolved options) =
  prettifyCommand chalk parse command options.
Proof. reflexivity. Qed.

End Proofs.

(** C1. A command whose length does not exceed [maxWidth] (80 when the option
    is left out) is returned unchanged, whatever the tokenizer says of it and
    whatever the other options are. *)
Theorem C1_short_command_unchanged
    (chalk : Chalk) (parse : Tokenizer) (command : string) (options : PrettifyOptions) :
  (len command <= withDefault 80 (maxWidth options))%Z ->
  prettifyCommand chalk parse command options = command.
Proof.
  intros Hshort. unfold prettifyCommand, parseCommand.
  destruct (parse command) as [parsed|error]; simpl; [|reflexivity].
  destruct (List.length (classify parsed) =? 0); [reflexivity|].
  destruct (Z.leb_spec (len command) (withDefault 80%Z (maxWidth options)));
    [reflexivity | lia].
Qed.

Lemma C1_witness :
  (len "ls -la" <= withDefault 80 (maxWidth noOptions))%Z /\
  prettifyCommand ansiChalk sampleParse "ls -la" noOptions = "ls -la".
Proof.
  split; [vm_compute; discriminate|].
  apply (C1_short_command_unchanged ansiChalk sampleParse "ls -la" noOptions).
  vm_compute; discriminate.
Defined.

(** C4. When the tokenizer throws on a command, [parseCommand] throws, the
    handler of [prettifyCommand] catches the error and the command is returned
    unchanged: the result is a string, never an error. *)
Theorem C4_tokenizer_error_returns_command
    (chalk : Chalk) (parse : Tokenizer) (command error : string)
    (options : PrettifyOptions) :
  parse command = Throw error ->
  parseCommand parse command = Throw error /\
  prettifyCommand chalk parse command options = command.
Proof.
  intros H. split; [now apply parseCommand_Throw|].
  unfold prettifyCommand. now rewrite (parseCommand_Throw parse command error H).
Qed.

Lemma C4_witness :
  sampleParse "echo 'unbalanced" = Throw "unbalanced quote" /\
  parseCommand sampleParse "echo 'unbalanced" = Throw "unbalanced quote" /\
  prettifyCommand ansiChalk sampleParse "echo 'unbalanced" narrow = "echo 'unbalanced".
Proof.
  split; [reflexivity|].
  apply (C4_tokenizer_error_returns_command ansiChalk sampleParse
           "echo 'unbalanced" "unbalanced quote" narrow).
  reflexivity.
Defined.

(** C10. When tokenization succeeds and yields no part, the command is
    returned unchanged, also when it is longer than [maxWidth]. *)
Theorem C10_no_parts_returns_command
    (chalk : Chalk) (parse : Tokenizer) (command : string) (options : PrettifyOptions) :
  parseCommand parse command = Ok [] ->
  prettifyCommand chalk parse command options = command.
Proof. intros H. unfold prettifyCommand. now rewrite H. Qed.

Lemma C10_witness :
  parseCommand sampleParse "        " = Ok [] /\
  (withDefault 80 (maxWidth narrow) < len "        ")%Z /\
  prettifyCommand ansiChalk sampleParse "        " narrow = "        ".
Proof.
  split; [reflexivity|]. split; [reflexivity|].
  apply (C10_no_parts_returns_command ansiChalk sampleParse "        " narrow).
  reflexivity.
Defined.

(** C8. The preview holds the command unchanged in [original], the decision
    helper's answer (asked with [maxWidth] as the threshold) in
    [shouldPrettify], and in [pretty] the output of [prettifyCommand] under
    the same layout options exactly when [showPretty] and the decision are
    both true; [pretty] is undefined otherwise. *)
Theorem C8_preview_fields
    (chalk : Chalk) (parse : Tokenizer) (command : string) (options : PreviewOptions) :
  let preview := getCommandPreview chalk parse command options in
  let decision :=
    shouldPrettifyCommand command (Some (withDefault 80%Z (pv_maxWidth options))) in
  let wanted := withDefault false (showPretty options) in
  original preview = command /\
  shouldPrettify preview = decision /\
  (pretty preview = Some (prettifyCommand chalk parse command (layoutOptions options))
   <-> wanted && decision = true) /\
  (pretty preview = None <-> wanted && decision = false).
Proof.
  intros preview decision wanted.
  assert (Hpretty : pretty preview =
            if wanted && decision
            then Some (prettifyCommand chalk parse command (layoutOptions options))
            else None).
  { unfold preview, getCommandPreview; cbn [pretty]. fold wanted. fold decision.
    destruct (wanted && decision); [|reflexivity].
    now rewrite <- (prettifyCommand_resolved chalk parse command (layoutOptions options)). }
  split; [reflexivity|]. split; [reflexivity|].
  rewrite Hpretty. destruct (wanted && decision); split; split; congruence.
Qed.

(** ** The classifier *)

Lemma classify_app (before after : list ParseEntry) :
  classify (before ++ after) = fold_left classifyEntry after (classify before).
Proof. unfold classify. apply fold_left_app. Qed.

Lemma classifyEntry_extends (parts : list CommandPart) (e : ParseEntry) :
  classifyEntry parts e = parts \/ exists q, classifyEntry parts e = parts ++ [q].
Proof.
  destruct e as [s|op|pattern|text]; simpl; [| right | right | left]; eauto.
  destruct (startsWith s "--"); [right; eauto|].
  destruct (startsWith s "-" && (1 <? String.length s) && negb (matchDashDigit s));
    right; eauto.
Qed.

Lemma classify_fold_extends (entries : list ParseEntry) (parts : list CommandPart) :
  exists later, fold_left classifyEntry entries parts = parts ++ later.
Proof.
  revert parts; induction entries as [|e entries IH]; intros parts; simpl.
  - exists []; now rewrite app_nil_r.
  - destruct (IH (classifyEntry parts e)) as [later Hlater]. rewrite Hlater.
    destruct (classifyEntry_extends parts e) as [-> | [q ->]].
    + now exists later.
    + exists (q :: later). now rewrite <- app_assoc.
Qed.

Lemma isCommand_test (parts : list CommandPart) :
  (List.length parts =? 0) || forallb isOperator parts = forallb isOperator parts.
Proof. destruct parts; reflexivity. Qed.

Lemma digit_not_dash (d : ascii) : isDigit d = true -> d <> "-"%char.
Proof. intros H ->. discriminate H. Qed.

(** A word that starts with one dash and a digit takes the last branch of the
    classifier. *)
Lemma classifyEntry_dash_digit (parts : list CommandPart) (d : ascii) (rest : string) :
  isDigit d = true ->
  classifyEntry parts (Word (String "-" (String d rest))) =
  parts ++ [{| type := if forallb isOperator parts then Command else Argument;
               value := String "-" (String d rest);
               isLongOption := false; isShortOption := false |}].
Proof.
  intros Hd. unfold classifyEntry.
  assert (Hlong : startsWith (String "-" (String d rest)) "--" = false).
  { destruct (startsWith (String "-" (String d rest)) "--") eqn:E; [|reflexivity].
    unfold startsWith in E. apply prefix_spec in E as [tail H]. simpl in H.
    injection H as Hdash _. now destruct (digit_not_dash d Hd). }
  rewrite Hlong. unfold matchDashDigit. rewrite Hd. rewrite andb_false_r.
  cbv zeta. fold isOperator. fold (forallb isOperator parts).
  change (fun p : CommandPart => PartType_eqb (type p) Operator) with isOperator.
  now rewrite isCommand_test.
Qed.

Lemma snoc_split {A : Type} (l before after : list A) (q p : A) :
  l ++ [q] = before ++ p :: after ->
  (before = l /\ p = q /\ after = []) \/
  (exists after', after = after' ++ [q] /\ l = before ++ p :: after').
Proof.
  intros H. destruct (exists_last (l := p :: after)) as [after' [z Hz]]; [discriminate|].
  destruct after' as [|p' after'].
  - simpl in Hz. injection Hz as -> ->.
    apply app_inj_tail in H as [-> ->]. now left.
  - simpl in Hz. injection Hz as <- ->. right. exists after'.
    change (before ++ p :: after' ++ [z]) with (before ++ (p :: after') ++ [z]) in H.
    rewrite app_assoc in H. apply app_inj_tail in H as [-> ->]. now split.
Qed.

Lemma kindsOK_classifyEntry (parts : list CommandPart) (e : ParseEntry) :
  kindsOK parts -> kindsOK (classifyEntry parts e).
Proof.
  intros IH before p after Heq Hop.
  assert (Hold : forall q, parts ++ [q] = before ++ p :: after ->
            (isOperator q = false ->
             type q = if forallb isOperator parts && negb (isOption q)
                      then Command else Argument) ->
            type p = if forallb isOperator before && negb (isOption p)
                     then Command else Argument).
  { intros q Hq Hnew. apply snoc_split in Hq as [[-> [-> _]] | [after' [_ Hparts]]].
    - now apply Hnew.
    - now apply (IH before p after'). }
  destruct e as [s|op|pattern|text]; simpl in Heq.
  - destruct (startsWith s "--").
    { apply (Hold _ Heq). intros _. simpl. now rewrite andb_false_r. }
    destruct (startsWith s "-" && (1 <? String.length s) && negb (matchDashDigit s)).
    { apply (Hold _ Heq). intros _. simpl. now rewrite andb_false_r. }
    apply (Hold _ Heq). intros _. cbn [type isOption isLongOption isShortOption].
    change (fun p : CommandPart => PartType_eqb (type p) Operator) with isOperator.
    rewrite isCommand_test. simpl. now rewrite andb_true_r.
  - apply (Hold _ Heq). discriminate.
  - apply (Hold _ Heq). discriminate.
  - now apply (IH before p after).
Qed.

Lemma kindsOK_classify (entries : list ParseEntry) : kindsOK (classify entries).
Proof.
  unfold classify.
  assert (H : forall parts, kindsOK parts -> kindsOK (fold_left classifyEntry entries parts)).
  { induction entries as [|e entries IH]; intros parts Hparts; simpl; [exact Hparts|].
    apply IH. now apply kindsOK_classifyEntry. }
  apply H. intros [|x before] p after Heq; discriminate.
Qed.

(** C2, as the code has it.  In the parts of a command, a part that is not an
    Operator is a Command when it is the first such part and is not a long or
    short option; every other part that is not an Operator is an Argument,
    also when it follows an Operator. *)
Theorem C2_kinds_of_the_parts
    (parse : Tokenizer) (command : string) (parts before after : list CommandPart)
    (p : CommandPart) :
  parseCommand parse command = Ok parts ->
  parts = before ++ p :: after ->
  isOperator p = false ->
  type p = if forallb isOperator before && negb (isOption p) then Command else Argument.
Proof.
  unfold parseCommand. destruct (parse command) as [parsed|error]; simpl; [|discriminate].
  intros [= <-]. apply kindsOK_classify.
Qed.

Lemma C2_witness :
  parseCommand sampleParse "make -j 4 && ls" =
    Ok ([part Command "make" false false; part Argument "-j" false true;
         part Argument "4" false false; part Operator "&&" false false]
        ++ part Argument "ls" false false :: []) /\
  type (part Argument "ls" false false) = Argument.
Proof.
  split; [reflexivity|].
  apply (C2_kinds_of_the_parts sampleParse "make -j 4 && ls" _ _ [] _ eq_refl eq_refl).
  reflexivity.
Defined.

(** C2 as the specification states it fails: the word after [&&] is an
    Argument, not a Command, and a leading option is an Argument too. *)
Lemma C2_counterexample :
  (parseCommand sampleParse "make && ls" =
     Ok [part Command "make" false false; part Operator "&&" false false;
         part Argument "ls" false false] /\
   specInvariant true [part Command "make" false false; part Operator "&&" false false;
                       part Argument "ls" false false] = false) /\
  (parseCommand sampleParse "--verbose ls" =
     Ok [part Argument "--verbose" true false; part Argument "ls" false false] /\
   specInvariant true [part Argument "--verbose" true false;
                       part Argument "ls" false false] = false).
Proof. repeat split. Qed.

(** C9. A word that starts with one dash and a digit is never marked as a
    short option, nor as a long one: the classifier pushes it as a plain part,
    a Command when only Operators come before it and an Argument otherwise. *)
Theorem C9_dash_digit_is_plain
    (parse : Tokenizer) (command : string) (before after : list ParseEntry)
    (d : ascii) (rest : string) :
  parse command = Ok (before ++ Word (String "-" (String d rest)) :: after) ->
  isDigit d = true ->
  exists later,
    parseCommand parse command =
    Ok (classify before ++
        part (if forallb isOperator (classify before) then Command else Argument)
             (String "-" (String d rest)) false false :: later).
Proof.
  intros Hparse Hd. rewrite (parseCommand_Ok parse command _ Hparse).
  rewrite classify_app. cbn [fold_left].
  rewrite (classifyEntry_dash_digit _ d rest Hd).
  destruct (classify_fold_extends after
              (classify before ++
               [part (if forallb isOperator (classify before) then Command else Argument)
                     (String "-" (String d rest)) false false])) as [later Hlater].
  exists later. unfold part in *. rewrite Hlater. now rewrite <- app_assoc.
Qed.

Lemma C9_witness :
  sampleParse "head -5 notes" = Ok ([Word "head"] ++ Word "-5" :: [Word "notes"]) /\
  isDigit "5" = true /\
  exists later,
    parseCommand sampleParse "head -5 notes" =
    Ok (classify [Word "head"] ++ part Argument "-5" false false :: later).
Proof.
  split; [reflexivity|]. split; [reflexivity|].
  apply (C9_dash_digit_is_plain sampleParse "head -5 notes" [Word "head"] [Word "notes"]
           "5"%char "" eq_refl eq_refl).
Defined.

(** ** The decision helper *)

Lemma matchLongAt_unfold (s : string) :
  matchLongAt s =
  match s with
  | String a (String b s') =>
      if (a =? "-")%char && (b =? "-")%char
      then let (w, rest) := takeWord s' in
           if truthy w then Some ("--" +++ w, rest) else None
      else None
  | _ => None
  end.
Proof.
  destruct s as [|a [|b s']]; try reflexivity.
  - destruct a as [[] [] [] [] [] [] [] []]; reflexivity.
  - destruct (Ascii.eqb_spec a "-") as [->|Ha].
    + destruct (Ascii.eqb_spec b "-") as [->|Hb]; [reflexivity|].
      destruct b as [[] [] [] [] [] [] [] []]; try reflexivity; congruence.
    + destruct a as [[] [] [] [] [] [] [] []]; try reflexivity; congruence.
Qed.

Lemma startsLongOption_unfold (s : string) :
  startsLongOption s =
  match s with
  | String a (String b (String c _)) =>
      (a =? "-")%char && (b =? "-")%char && isWordChar c
  | _ => false
  end.
Proof.
  destruct s as [|a [|b [|c s']]]; try reflexivity.
  - destruct a as [[] [] [] [] [] [] [] []]; reflexivity.
  - destruct (Ascii.eqb_spec a "-") as [->|Ha].
    + destruct b as [[] [] [] [] [] [] [] []]; reflexivity.
    + destruct a as [[] [] [] [] [] [] [] []]; try reflexivity; congruence.
  - destruct (Ascii.eqb_spec a "-") as [->|Ha].
    + destruct (Ascii.eqb_spec b "-") as [->|Hb]; [reflexivity|].
      destruct b as [[] [] [] [] [] [] [] []]; try reflexivity; congruence.
    + destruct a as [[] [] [] [] [] [] [] []]; try reflexivity; congruence.
Qed.

Lemma wordChar_not_dash (c : ascii) : isWordChar c = true -> (c =? "-")%char = false.
Proof.
  intros H. destruct (Ascii.eqb_spec c "-") as [->|_]; [discriminate H | reflexivity].
Qed.

Lemma startsLongOption_wordChar (c : ascii) (s : string) :
  isWordChar c = true -> startsLongOption (String c s) = false.
Proof.
  intros H. rewrite startsLongOption_unfold.
  destruct s as [|b [|d s']]; try reflexivity.
  now rewrite (wordChar_not_dash c H).
Qed.

Lemma takeWord_spec (s w rest : string) :
  takeWord s = (w, rest) ->
  s = w +++ rest /\ Forall (fun c => isWordChar c = true) (chars w).
Proof.
  revert w rest; induction s as [|c s IH]; intros w rest; simpl.
  - intros [= <- <-]. split; [reflexivity | constructor].
  - destruct (isWordChar c) eqn:Hc.
    + destruct (takeWord s) as [w' rest'] eqn:Hs. intros [= <- <-].
      destruct (IH w' rest' eq_refl) as [-> Hall]. split; [reflexivity|].
      now constructor.
    + intros [= <- <-]. split; [reflexivity | constructor].
Qed.

Lemma countLongOptions_skip_word (w rest : string) :
  Forall (fun c => isWordChar c = true) (chars w) ->
  countLongOptions (w +++ rest) = countLongOptions rest.
Proof.
  induction w as [|c w IH]; intros Hall; [reflexivity|].
  inversion Hall as [|? ? Hc Hw]; subst.
  change (String c w +++ rest) with (String c (w +++ rest)).
  cbn [countLongOptions]. rewrite (startsLongOption_wordChar c _ Hc).
  now rewrite IH.
Qed.

(** What a match of [--\w+] is: a double dash and a non-empty run of word
    characters, found at the start of the text. *)
Lemma matchLongAt_Some (s m rest : string) :
  matchLongAt s = Some (m, rest) ->
  exists w, m = "--" +++ w /\ s = m +++ rest /\ truthy w = true /\
            Forall (fun c => isWordChar c = true) (chars w).
Proof.
  rewrite matchLongAt_unfold. destruct s as [|a [|b s']]; try discriminate.
  destruct (Ascii.eqb_spec a "-") as [->|_]; [|discriminate].
  destruct (Ascii.eqb_spec b "-") as [->|_]; [|discriminate]. cbn [andb].
  destruct (takeWord s') as [w rest'] eqn:Hw. destruct (truthy w) eqn:Ht; [|discriminate].
  intros [= <- <-]. destruct (takeWord_spec _ _ _ Hw) as [-> Hall].
  exists w. repeat split; assumption.
Qed.

Lemma matchLongAt_None (s : string) :
  matchLongAt s = None -> startsLongOption s = false.
Proof.
  rewrite matchLongAt_unfold, startsLongOption_unfold.
  destruct s as [|a [|b [|c s']]]; try reflexivity.
  destruct ((a =? "-")%char && (b =? "-")%char); [|reflexivity]. cbn [andb].
  cbn [takeWord]. destruct (isWordChar c); [|reflexivity].
  destruct (takeWord s'); discriminate.
Qed.

Lemma countLongOptions_match (w rest : string) :
  truthy w = true ->
  Forall (fun c => isWordChar c = true) (chars w) ->
  countLongOptions (("--" +++ w) +++ rest) = S (countLongOptions rest).
Proof.
  intros Ht Hall. destruct w as [|c w]; [discriminate|].
  inversion Hall as [|? ? Hc Hw]; subst.
  change (("--" +++ String c w) +++ rest)
    with (String "-" (String "-" (String c w +++ rest))).
  cbn [countLongOptions].
  rewrite (countLongOptions_skip_word (String c w) rest Hall).
  rewrite !startsLongOption_unfold.
  change (String c w +++ rest) with (String c (w +++ rest)).
  cbv beta iota. rewrite Hc, (wordChar_not_dash c Hc).
  destruct (w +++ rest); reflexivity.
Qed.

(** The matches of the global search are as many as the places where such a
    match starts; the fuel, one turn per code unit, is enough. *)
Lemma matchAllLongFrom_count (fuel : nat) (s : string) :
  String.length s <= fuel ->
  List.length (matchAllLongFrom fuel s) = countLongOptions s.
Proof.
  revert s; induction fuel as [|fuel IH]; intros s Hlen.
  - destruct s; [reflexivity | simpl in Hlen; lia].
  - cbn [matchAllLongFrom]. destruct (matchLongAt s) as [[m rest]|] eqn:Hm.
    + destruct (matchLongAt_Some _ _ _ Hm) as [w [-> [-> [Ht Hall]]]].
      cbn [List.length]. rewrite IH.
      * now rewrite countLongOptions_match.
      * rewrite length_append in Hlen. simpl in Hlen. lia.
    + apply matchLongAt_None in Hm. destruct s as [|c s]; [reflexivity|].
      cbn [countLongOptions]. rewrite Hm. apply IH. simpl in Hlen. lia.
Qed.

Lemma matchAllLong_count (s : string) :
  List.length (matchAllLong s) = countLongOptions s.
Proof. apply matchAllLongFrom_count. lia. Qed.

(** Every match is a double dash followed by a non-empty run of word
    characters. *)
Lemma matchAllLongFrom_shape (fuel : nat) (s : string) :
  Forall (fun m => exists w, m = "--" +++ w /\ truthy w = true /\
                             Forall (fun c => isWordChar c = true) (chars w))
    (matchAllLongFrom fuel s).
Proof.
  revert s; induction fuel as [|fuel IH]; intros s; [constructor|].
  cbn [matchAllLongFrom]. destruct (matchLongAt s) as [[m rest]|] eqn:Hm.
  - constructor; [|apply IH].
    destruct (matchLongAt_Some _ _ _ Hm) as [w [-> [_ [Ht Hall]]]]. now exists w.
  - destruct s as [|c s]; [constructor | apply IH].
Qed.

(** C3. [shouldPrettifyCommand] answers true exactly when the command is
    longer than the threshold (80 when it is left out), or contains one of
    [&&], [||], [;], [|], or holds more than three long-option-like matches
    (a double dash followed by word characters).  The matches are counted by
    the places where one starts, which is the number of matches of the global
    search [/--\w+/g], each of them a double dash and a non-empty run of word
    characters.  The four examples of the specification evaluate as it says. *)
Theorem C3_shouldPrettifyCommand_decision (command : string) (threshold : option Z) :
  (shouldPrettifyCommand command threshold = true <->
   (withDefault 80 threshold < len command)%Z
   \/ contains command "&&" \/ contains command "||"
   \/ contains command ";" \/ contains command "|"
   \/ 3 < countLongOptions command) /\
  countLongOptions command = List.length (matchAllLong command) /\
  Forall (fun m => exists w, m = "--" +++ w /\ truthy w = true /\
                             Forall (fun c => isWordChar c = true) (chars w))
    (matchAllLong command) /\
  shouldPrettifyCommand "ls -la" None = false /\
  shouldPrettifyCommand "npm run build && npm run test" None = true /\
  shouldPrettifyCommand "cmd --a --b --c --d" None = true /\
  shouldPrettifyCommand "cmd --a --b --c" None = false.
Proof.
  split; [|split; [|split]].
  - unfold shouldPrettifyCommand. rewrite !orb_true_iff, !includes_spec.
    rewrite matchAllLong_count, Nat.ltb_lt, Z.gtb_lt. tauto.
  - symmetry. apply matchAllLong_count.
  - apply matchAllLongFrom_shape.
  - repeat split.
Qed.

(** ** The layout loop *)

Create HintDb layout.
#[local] Hint Constructors edit edits : layout.

Lemma edits_one (P : string -> Prop) (st st' : LayoutState) :
  edit P st st' -> edits P st st'.
Proof. eauto with layout. Qed.

Lemma edits_result (P : string -> Prop) (st st' : LayoutState) :
  edits P st st' -> exists more, result st' = result st ++ more.
Proof.
  induction 1 as [st | st st1 st2 _ [more IH] Hedit].
  - exists []; now rewrite app_nil_r.
  - destruct Hedit as [st1 x y _ _ | st1 x _]; simpl.
    + exists (more ++ [currentLine st1 +++ x]). now rewrite IH, app_assoc.
    + now exists more.
Qed.

Lemma edits_built (P : string -> Prop) (st st' : LayoutState) :
  (forall a b, P a -> P b -> P (a +++ b)) ->
  edits P st st' -> built P st -> built P st'.
Proof.
  intros Happ. induction 1 as [st | st st1 st2 _ IH Hedit]; intros Hst; [exact Hst|].
  destruct (IH Hst) as [Hres Hcur].
  destruct Hedit as [st1 x y Hx Hy | st1 x Hx]; split; simpl; auto.
  apply Forall_app. split; [exact Hres|]. constructor; auto.
Qed.

Lemma edits_started (P : string -> Prop) (R : list string) (L : string)
    (st st' : LayoutState) :
  edits P st st' -> started R L st -> started R L st'.
Proof.
  induction 1 as [st | st st1 st2 _ IH Hedit]; intros Hst; [exact Hst|].
  specialize (IH Hst). unfold started in *.
  destruct Hedit as [st1 x y _ _ | st1 x _];
    destruct IH as [[Hres [tail Hcur]] | [tail [after Hres]]]; simpl.
  - right. exists (tail +++ x), []. now rewrite Hres, Hcur, append_assoc.
  - right. exists tail, (after ++ [currentLine st1 +++ x]).
    rewrite Hres, <- app_assoc. reflexivity.
  - left. split; [exact Hres|]. exists (tail +++ x). now rewrite Hcur, append_assoc.
  - right. now exists tail, after.
Qed.

Section Layout.

Variable chalk : Chalk.
Variable maxWidth : Z.
Variable indent : string.
Variable flagsOnNewLine disableColors : bool.
Variable parts : list CommandPart.

Let body := loopBody chalk maxWidth indent flagsOnNewLine disableColors parts.
Let turn := loopTurn chalk maxWidth indent flagsOnNewLine disableColors parts.
Let loop := layoutLoop chalk maxWidth indent flagsOnNewLine disableColors parts.
Let shown := rendered chalk disableColors.

(** The body on a Command: the current line is replaced. *)
Lemma loopBody_Command (i : nat) (st : LayoutState) (p : CommandPart) :
  nth_error parts i = Some p -> type p = Command ->
  body i st = (setLine st (shown p), i).
Proof. intros Hp Ht. unfold body, loopBody. now rewrite Hp, Ht. Qed.

(** The body on an Operator. *)
Lemma loopBody_Operator (i : nat) (st : LayoutState) (p : CommandPart) :
  nth_error parts i = Some p -> type p = Operator ->
  body i st =
  (if (value p =? "&&")%string || (value p =? "||")%string || (value p =? "|")%string
   then push st (currentLine st +++ " " +++ shown p) ""
   else if (value p =? ";")%string
   then push st (currentLine st +++ shown p) ""
   else setLine st (currentLine st +++ " " +++ shown p), i).
Proof.
  intros Hp Ht. unfold body, loopBody. rewrite Hp, Ht.
  destruct ((value p =? "&&")%string || (value p =? "||")%string
            || (value p =? "|")%string); [reflexivity|].
  destruct (value p =? ";")%string; reflexivity.
Qed.

(** The body on an option in flags-on-new-line mode. *)
Lemma loopBody_flag (i : nat) (st : LayoutState) (p : CommandPart) :
  nth_error parts i = Some p -> type p = Argument ->
  flagsOnNewLine = true -> isOption p = true ->
  body i st =
  (if truthy (trim (currentLine st))
   then push st (currentLine st +++ continuation) (indent +++ shown p)
   else setLine st (currentLine st +++ " " +++ shown p), i).
Proof.
  intros Hp Ht Hfl Hopt. unfold body, loopBody. rewrite Hp, Ht, Hfl.
  unfold isOption in Hopt. rewrite Hopt. cbn [andb negb]. rewrite andb_false_r.
  reflexivity.
Qed.

(** The index after the body: the same, or one more when the body has
    consumed the value of a long option, which is a plain Argument. *)
Lemma loopBody_index (i : nat) (st : LayoutState) :
  snd (body i st) = i \/
  (snd (body i st) = i + 1 /\ flagsOnNewLine = false /\
   exists q, nth_error parts (i + 1) = Some q /\ type q = Argument /\ isOption q = false).
Proof.
  unfold body, loopBody. destruct (nth_error parts i) as [p|]; [|now left].
  destruct (type p).
  - now left.
  - destruct (isLongOption p && negb (i =? List.length parts - 1) && negb flagsOnNewLine)
      eqn:Hlook; [|now left].
    destruct (nth_error parts (i + 1)) as [q|] eqn:Hq; [|now left].
    destruct (PartType_eqb (type q) Argument && negb (isLongOption q)
              && negb (isShortOption q)) eqn:Hplain; [|now left].
    match goal with |- context [if ?b then _ else _] => destruct b end; [|now left].
    right. split; [reflexivity|].
    apply andb_true_iff in Hlook as [_ Hfl]. apply negb_true_iff in Hfl.
    split; [exact Hfl|]. exists q. split; [reflexivity|].
    apply andb_true_iff in Hplain as [Hplain Hshort].
    apply andb_true_iff in Hplain as [Hty Hlong].
    apply negb_true_iff in Hshort, Hlong. unfold isOption. rewrite Hshort, Hlong.
    split; [|reflexivity]. destruct (type q); try discriminate; reflexivity.
  - destruct ((value p =? "&&")%string || (value p =? "||")%string
              || (value p =? "|")%string); [now left|].
    destruct (value p =? ";")%string; now left.
Qed.

(** The body on a part that is not a Command only pushes lines that extend
    the current line, and appends to it. *)
Lemma loopBody_edits (P : string -> Prop) (i : nat) (st : LayoutState) (p : CommandPart) :
  P "" -> P " " -> P continuation -> P indent ->
  (forall a b, P a -> P b -> P (a +++ b)) ->
  (forall q, In q parts -> P (shown q)) ->
  nth_error parts i = Some p -> type p <> Command ->
  edits P st (fst (body i st)).
Proof.
  intros Hempty Hspace Hcont Hind Happ Hparts Hp Hty.
  assert (Hshown : P (shown p)) by (apply Hparts; eapply nth_error_In; eassumption).
  destruct (type p) eqn:Ht; [congruence | |].
  - unfold body, loopBody. rewrite Hp, Ht.
    set (st1 := if flagsOnNewLine && (isLongOption p || isShortOption p)
                then if truthy (trim (currentLine st))
                     then push st (currentLine st +++ continuation)
                            (indent +++ rendered chalk disableColors p)
                     else setLine st (currentLine st +++ " " +++ rendered chalk disableColors p)
                else if ((len (currentLine st)
                          + len (" " +++ rendered chalk disableColors p) >? maxWidth)%Z
                         && (len (currentLine st) >? 0)%Z)
                     then push st (currentLine st +++ continuation)
                            (indent +++ rendered chalk disableColors p)
                     else setLine st (currentLine st +++ " " +++ rendered chalk disableColors p)).
    assert (H1 : edits P st st1).
    { unfold st1. apply edits_one.
      destruct (flagsOnNewLine && (isLongOption p || isShortOption p));
        match goal with |- context [if ?b then _ else _] => destruct b end;
        auto with layout. }
    destruct (isLongOption p && negb (i =? List.length parts - 1) && negb flagsOnNewLine);
      [|exact H1].
    destruct (nth_error parts (i + 1)) as [q|] eqn:Hq; [|exact H1].
    destruct (PartType_eqb (type q) Argument && negb (isLongOption q)
              && negb (isShortOption q)); [|exact H1].
    match goal with |- context [if ?b then _ else _] => destruct b end; [|exact H1].
    cbn [fst]. eapply edits_more; [exact H1|]. apply edit_push; [exact Hcont|].
    apply Happ; [exact Hind|]. apply Hparts. eapply nth_error_In; eassumption.
  - fold body. rewrite (loopBody_Operator i st p Hp Ht). cbn [fst].
    apply edits_one.
    destruct ((value p =? "&&")%string || (value p =? "||")%string
              || (value p =? "|")%string); [auto with layout|].
    destruct (value p =? ";")%string; auto with layout.
Qed.

(** Every body keeps the lines that were pushed. *)
Lemma loopBody_result (i : nat) (st : LayoutState) :
  exists more, result (fst (body i st)) = result st ++ more.
Proof.
  destruct (nth_error parts i) as [p|] eqn:Hp.
  - destruct (type p) eqn:Ht.
    + rewrite (loopBody_Command i st p Hp Ht). exists []. simpl. now rewrite app_nil_r.
    + apply (edits_result (fun _ => True)).
      apply (loopBody_edits _ i st p); auto; congruence.
    + apply (edits_result (fun _ => True)).
      apply (loopBody_edits _ i st p); auto; congruence.
  - unfold body, loopBody. rewrite Hp. exists []. simpl. now rewrite app_nil_r.
Qed.

(** *** Turns *)

Lemma turn_index (c : nat * LayoutState) : fst c < fst (turn c).
Proof.
  unfold turn, loopTurn. fold body.
  destruct (loopBody_index (fst c) (snd c)) as [H | [H _]];
    destruct (body (fst c) (snd c)) as [st' i']; simpl in *; lia.
Qed.

Lemma loop_exited (n : nat) (c : nat * LayoutState) :
  List.length parts <= fst c -> loop n c = c.
Proof.
  intros H. destruct n; [reflexivity|]. unfold loop; simpl.
  destruct (Nat.ltb_spec (fst c) (List.length parts)); [lia | reflexivity].
Qed.

Lemma loop_succ (n : nat) (c : nat * LayoutState) :
  loop (S n) c =
  if fst (loop n c) <? List.length parts then turn (loop n c) else loop n c.
Proof.
  revert c; induction n as [|n IH]; intros c.
  - reflexivity.
  - change (loop (S (S n)) c)
      with (if fst c <? List.length parts then loop (S n) (turn c) else c).
    change (loop (S n) c)
      with (if fst c <? List.length parts then loop n (turn c) else c).
    destruct (fst c <? List.length parts) eqn:Hc; [apply IH|].
    now rewrite Hc.
Qed.

Lemma loop_add (n m : nat) (c : nat * LayoutState) :
  loop (n + m) c = loop m (loop n c).
Proof.
  revert c; induction n as [|n IH]; intros c; [reflexivity|].
  change (loop (S n + m) c)
    with (if fst c <? List.length parts then loop (n + m) (turn c) else c).
  change (loop (S n) c)
    with (if fst c <? List.length parts then loop n (turn c) else c).
  destruct (Nat.ltb_spec (fst c) (List.length parts)); [apply IH|].
  symmetry. now apply loop_exited.
Qed.

Lemma loop_progress (n : nat) (c : nat * LayoutState) :
  fst c + n <= fst (loop n c) \/ List.length parts <= fst (loop n c).
Proof.
  revert c; induction n as [|n IH]; intros c; [left; unfold loop; simpl; lia|].
  change (loop (S n) c)
    with (if fst c <? List.length parts then loop n (turn c) else c).
  destruct (Nat.ltb_spec (fst c) (List.length parts)); [|now right].
  destruct (IH (turn c)) as [Hn | Hn]; [left | now right].
  pose proof (turn_index c). lia.
Qed.

(** The loop ends: after [parts.length] turns the index has left the array. *)
Lemma layoutLoop_exits : List.length parts <= fst (loop (List.length parts) initial).
Proof. destruct (loop_progress (List.length parts) initial); simpl in *; lia. Qed.

Lemma loop_result (n : nat) (c : nat * LayoutState) :
  exists more, result (snd (loop n c)) = result (snd c) ++ more.
Proof.
  revert c; induction n as [|n IH]; intros c.
  - exists []; simpl; now rewrite app_nil_r.
  - change (loop (S n) c)
      with (if fst c <? List.length parts then loop n (turn c) else c).
    destruct (fst c <? List.length parts).
    + destruct (IH (turn c)) as [more Hmore]. rewrite Hmore.
      unfold turn, loopTurn. fold body.
      destruct (loopBody_result (fst c) (snd c)) as [more' Hmore'].
      destruct (body (fst c) (snd c)) as [st' i']. simpl in *.
      exists (more' ++ more). now rewrite Hmore', app_assoc.
    + exists []; now rewrite app_nil_r.
Qed.

(** Every index is reached by the loop, or consumed by the body of the index
    before it. *)
Lemma loop_reaches (i : nat) :
  i <= List.length parts ->
  (exists n st, loop n initial = (i, st)) \/
  (exists n st j, loop n initial = (j, st) /\ i = j + 1 /\ snd (body j st) = j + 1).
Proof.
  induction i as [|i IH]; intros Hi.
  - left. exists 0. eexists. reflexivity.
  - assert (Hi' : i <= List.length parts) by lia. specialize (IH Hi').
    destruct IH as [[n [st Hn]] | [n [st [j [Hn [Hij Hskip]]]]]].
    + pose proof (loop_succ n initial) as Hs. rewrite Hn in Hs. cbn [fst] in Hs.
      destruct (Nat.ltb_spec i (List.length parts)); [|lia].
      unfold turn, loopTurn in Hs. fold body in Hs. cbn [fst snd] in Hs.
      destruct (loopBody_index i st) as [Hsame | [Hnext _]].
      * left. exists (S n). destruct (body i st) as [st' i']. simpl in Hsame.
        subst i'. eauto.
      * right. exists n, st, i. repeat split; [exact Hn | lia | exact Hnext].
    + left. pose proof (loop_succ n initial) as Hs. rewrite Hn in Hs. cbn [fst] in Hs.
      destruct (Nat.ltb_spec j (List.length parts)); [|lia].
      unfold turn, loopTurn in Hs. fold body in Hs. cbn [fst snd] in Hs.
      exists (S n). destruct (body j st) as [st' i']. simpl in Hskip. subst. eauto.
Qed.

(** A part that is an Operator, an option or a Command is never consumed by
    another part: the loop reaches it. *)
Lemma loop_visits (i : nat) (p : CommandPart) :
  nth_error parts i = Some p ->
  type p <> Argument \/ isOption p = true \/ flagsOnNewLine = true ->
  exists st, visits chalk maxWidth indent flagsOnNewLine disableColors parts i st.
Proof.
  intros Hp Hkind.
  assert (Hi : i < List.length parts) by (apply nth_error_Some; congruence).
  destruct (loop_reaches i (Nat.lt_le_incl _ _ Hi))
    as [[n [st Hn]] | [n [st [j [Hn [Hij Hskip]]]]]].
  - exists st. split; [exact Hi|]. now exists n.
  - exfalso. destruct (loopBody_index j st) as [Hsame | [_ [Hfl [q [Hq [Hty Hopt]]]]]];
      [lia|].
    rewrite <- Hij, Hp in Hq. injection Hq as <-.
    destruct Hkind as [H | [H | H]]; congruence.
Qed.

(** From a configuration that the loop reaches, the rest of the loop. *)
Lemma loop_from_visit (i : nat) (st : LayoutState) :
  visits chalk maxWidth indent flagsOnNewLine disableColors parts i st ->
  exists rest, loop (List.length parts) initial = loop rest (turn (i, st)).
Proof.
  intros [Hi [n Hn]].
  assert (Hle : n < List.length parts).
  { destruct (loop_progress n initial) as [H | H]; fold loop in Hn;
      rewrite Hn in H; simpl in H; lia. }
  exists (List.length parts - S n).
  replace (List.length parts) with (S n + (List.length parts - S n)) at 1 by lia.
  rewrite loop_add, loop_succ. fold loop in Hn. rewrite Hn. cbn [fst].
  destruct (Nat.ltb_spec i (List.length parts)); [reflexivity | lia].
Qed.

(** The loop reaches an index with one state only. *)
Lemma visits_unique (i : nat) (st st' : LayoutState) :
  visits chalk maxWidth indent flagsOnNewLine disableColors parts i st ->
  visits chalk maxWidth indent flagsOnNewLine disableColors parts i st' ->
  st = st'.
Proof.
  intros [Hi [n Hn]] [_ [m Hm]]. fold loop in Hn, Hm.
  assert (Hlater : forall a b s s', loop a initial = (i, s) -> loop (a + b) initial = (i, s') ->
                                    s = s').
  { intros a b s s' Ha Hb. rewrite loop_add, Ha in Hb.
    destruct b as [|b]; [unfold loop in Hb; simpl in Hb; congruence|].
    exfalso. destruct (loop_progress (S b) (i, s)) as [H | H];
      rewrite Hb in H; simpl in H; lia. }
  destruct (Nat.le_ge_cases n m) as [Hnm | Hnm].
  - apply (Hlater n (m - n) st st' Hn). now replace (n + (m - n)) with m by lia.
  - symmetry. apply (Hlater m (n - m) st' st Hm). now replace (m + (n - m)) with n by lia.
Qed.

(** *** What the lines are made of *)

Lemma loop_built (P : string -> Prop) (n : nat) (c : nat * LayoutState) :
  P "" -> P " " -> P continuation -> P indent ->
  (forall a b, P a -> P b -> P (a +++ b)) ->
  (forall q, In q parts -> P (shown q)) ->
  built P (snd c) -> built P (snd (loop n c)).
Proof.
  intros Hempty Hspace Hcont Hind Happ Hparts.
  revert c; induction n as [|n IH]; intros c Hc; [exact Hc|].
  change (loop (S n) c)
    with (if fst c <? List.length parts then loop n (turn c) else c).
  destruct (fst c <? List.length parts); [|exact Hc].
  apply IH. unfold turn, loopTurn. fold body.
  assert (Hb : built P (fst (body (fst c) (snd c)))).
  { destruct (nth_error parts (fst c)) as [p|] eqn:Hp.
    - destruct (type p) eqn:Ht.
      + rewrite (loopBody_Command _ _ p Hp Ht). cbn [fst]. split; [apply Hc|].
        apply Hparts. eapply nth_error_In; eassumption.
      + apply (edits_built P (snd c)); [exact Happ| |exact Hc].
        apply (loopBody_edits P _ _ p); auto; congruence.
      + apply (edits_built P (snd c)); [exact Happ| |exact Hc].
        apply (loopBody_edits P _ _ p); auto; congruence.
    - unfold body, loopBody. rewrite Hp. exact Hc. }
  destruct (body (fst c) (snd c)) as [st' i']. exact Hb.
Qed.

(** *** A line that was started stays where it is *)

Lemma loop_started (R : list string) (L : string) (i n : nat) (c : nat * LayoutState) :
  (forall j q, i < j -> nth_error parts j = Some q -> type q <> Command) ->
  i < fst c ->
  started R L (snd c) -> started R L (snd (loop n c)).
Proof.
  intros Hlater. revert c; induction n as [|n IH]; intros c Hi Hc; [exact Hc|].
  change (loop (S n) c)
    with (if fst c <? List.length parts then loop n (turn c) else c).
  destruct (fst c <? List.length parts); [|exact Hc].
  apply IH; [pose proof (turn_index c); fold turn; lia|].
  unfold turn, loopTurn. fold body.
  assert (Hb : started R L (fst (body (fst c) (snd c)))).
  { destruct (nth_error parts (fst c)) as [p|] eqn:Hp.
    - apply (edits_started (fun _ => True) R L (snd c)); [|exact Hc].
      apply (loopBody_edits _ _ _ p); auto. now apply (Hlater (fst c)).
    - unfold body, loopBody. rewrite Hp. exact Hc. }
  destruct (body (fst c) (snd c)) as [st' i']. exact Hb.
Qed.

End Layout.

(** ** The layout of a long command *)

Lemma prettifyCommand_layout
    (chalk : Chalk) (parse : Tokenizer) (command : string) (options : PrettifyOptions)
    (parts : list CommandPart) (i : nat) (p : CommandPart) :
  parseCommand parse command = Ok parts ->
  nth_error parts i = Some p ->
  (widthOf options < len command)%Z ->
  prettifyCommand chalk parse command options = join newline (layoutLines chalk options parts).
Proof.
  intros Hparse Hp Hlong. apply prettifyCommand_long; [exact Hparse | | exact Hlong].
  intros ->. destruct i; discriminate.
Qed.

Lemma finalLines_pushed (st : LayoutState) (before : list string) (line : string)
    (more : list string) :
  result st = before ++ line :: more ->
  exists after, finalLines st = before ++ line :: after.
Proof.
  intros H. unfold finalLines. rewrite H. destruct (truthy (currentLine st)).
  - exists (more ++ [currentLine st]). now rewrite <- app_assoc.
  - now exists more.
Qed.

Lemma finalLines_started (R : list string) (L : string) (st : LayoutState) :
  started R L st -> truthy L = true ->
  exists tail after, finalLines st = R ++ (L +++ tail) :: after.
Proof.
  intros [[Hres [tail Hcur]] | [tail [after Hres]]] HL.
  - exists tail, []. unfold finalLines. rewrite Hcur, Hres.
    now rewrite (truthy_append_l L tail HL).
  - exists tail. now apply finalLines_pushed with (more := after).
Qed.

(** What follows a turn at a reached index, in the lines of the output. *)
Lemma layoutLines_after_turn
    (chalk : Chalk) (options : PrettifyOptions) (parts : list CommandPart)
    (i : nat) (st st' : LayoutState) :
  visits chalk (widthOf options) (indentOf options) (flagsOf options) (plainOf options)
    parts i st ->
  loopBody chalk (widthOf options) (indentOf options) (flagsOf options) (plainOf options)
    parts i st = (st', i) ->
  exists rest,
    layoutLines chalk options parts =
    finalLines
      (snd (layoutLoop chalk (widthOf options) (indentOf options) (flagsOf options)
              (plainOf options) parts rest (S i, st'))).
Proof.
  intros Hvisit Hbody. destruct (loop_from_visit _ _ _ _ _ _ _ _ Hvisit) as [rest Hrest].
  exists rest. unfold layoutLines. rewrite Hrest. unfold loopTurn. cbn [fst snd].
  now rewrite Hbody.
Qed.

Lemma string_eqb_false (a b : string) : a <> b -> (a =? b)%string = false.
Proof. apply String.eqb_neq. Qed.

(** C5. In the layout of a command that is longer than [maxWidth], the loop
    reaches every Operator.  For [&&], [||] and [|] it pushes the current line
    followed by a space and the operator, and empties the current line; for
    [;] it does the same without the space; for any other operator it appends
    a space and the operator to the current line and pushes nothing.  The
    line that is pushed is a line of the output. *)
Theorem C5_operator_layout
    (chalk : Chalk) (parse : Tokenizer) (command : string) (options : PrettifyOptions)
    (parts : list CommandPart) (i : nat) (p : CommandPart) :
  parseCommand parse command = Ok parts ->
  (widthOf options < len command)%Z ->
  nth_error parts i = Some p ->
  type p = Operator ->
  exists st st' lines,
    visits chalk (widthOf options) (indentOf options) (flagsOf options) (plainOf options)
      parts i st /\
    loopBody chalk (widthOf options) (indentOf options) (flagsOf options) (plainOf options)
      parts i st = (st', i) /\
    prettifyCommand chalk parse command options = join newline lines /\
    (value p = "&&" \/ value p = "||" \/ value p = "|" ->
     result st' = result st ++ [currentLine st +++ " " +++ rendered chalk (plainOf options) p] /\
     currentLine st' = "" /\
     exists after,
       lines = result st
               ++ (currentLine st +++ " " +++ rendered chalk (plainOf options) p) :: after) /\
    (value p = ";" ->
     result st' = result st ++ [currentLine st +++ rendered chalk (plainOf options) p] /\
     currentLine st' = "" /\
     exists after,
       lines = result st ++ (currentLine st +++ rendered chalk (plainOf options) p) :: after) /\
    (value p <> "&&" -> value p <> "||" -> value p <> "|" -> value p <> ";" ->
     result st' = result st /\
     currentLine st' = currentLine st +++ " " +++ rendered chalk (plainOf options) p).
Proof.
  intros Hparse Hlong Hp Hop.
  destruct (loop_visits chalk (widthOf options) (indentOf options) (flagsOf options)
              (plainOf options) parts i p Hp) as [st Hvisit]; [left; congruence|].
  pose proof (loopBody_Operator chalk (widthOf options) (indentOf options)
                (flagsOf options) (plainOf options) parts i st p Hp Hop) as Hbody.
  cbv zeta in Hbody.
  match type of Hbody with _ = (?s, _) => set (st' := s) in * end.
  exists st, st', (layoutLines chalk options parts).
  split; [exact Hvisit|]. split; [exact Hbody|].
  split; [exact (prettifyCommand_layout chalk parse command options parts i p Hparse Hp Hlong)|].
  destruct (layoutLines_after_turn chalk options parts i st st' Hvisit Hbody) as [rest ->].
  destruct (loop_result chalk (widthOf options) (indentOf options) (flagsOf options)
              (plainOf options) parts rest (S i, st')) as [more Hmore].
  cbn [snd] in Hmore.
  split; [|split].
  - intros Hv.
    assert (Hst' : st' = push st (currentLine st +++ " " +++ rendered chalk (plainOf options) p) "").
    { unfold st'. destruct Hv as [-> | [-> | ->]]; reflexivity. }
    rewrite Hst' in *. split; [reflexivity|]. split; [reflexivity|].
    apply finalLines_pushed with (more := more). rewrite Hmore. simpl.
    now rewrite <- app_assoc.
  - intros Hv.
    assert (Hst' : st' = push st (currentLine st +++ rendered chalk (plainOf options) p) "").
    { unfold st'. rewrite Hv. reflexivity. }
    rewrite Hst' in *. split; [reflexivity|]. split; [reflexivity|].
    apply finalLines_pushed with (more := more). rewrite Hmore. simpl.
    now rewrite <- app_assoc.
  - intros H1 H2 H3 H4. unfold st'.
    rewrite (string_eqb_false _ _ H1), (string_eqb_false _ _ H2),
      (string_eqb_false _ _ H3), (string_eqb_false _ _ H4).
    split; reflexivity.
Qed.

Lemma C5_witness :
  parseCommand sampleParse "make && ls" =
    Ok [part Command "make" false false; part Operator "&&" false false;
        part Argument "ls" false false] /\
  (widthOf narrowPlain < len "make && ls")%Z /\
  exists st st' lines,
    visits ansiChalk 5 "  " false true
      [part Command "make" false false; part Operator "&&" false false;
       part Argument "ls" false false] 1 st /\
    prettifyCommand ansiChalk sampleParse "make && ls" narrowPlain = join newline lines /\
    result st' = result st ++ [currentLine st +++ " " +++ "&&"] /\
    currentLine st' = "" /\
    exists after, lines = result st ++ (currentLine st +++ " " +++ "&&") :: after.
Proof.
  split; [reflexivity|]. split; [reflexivity|].
  destruct (C5_operator_layout ansiChalk sampleParse "make && ls" narrowPlain
              [part Command "make" false false; part Operator "&&" false false;
               part Argument "ls" false false] 1 (part Operator "&&" false false)
              eq_refl eq_refl eq_refl eq_refl)
    as [st [st' [lines [Hvisit [_ [Hpretty [Hand _]]]]]]].
  exists st, st', lines. split; [exact Hvisit|]. split; [exact Hpretty|].
  apply Hand. left. reflexivity.
Defined.

(** ** Options in flags-on-new-line mode *)

Lemma classifyEntry_options (parts : list CommandPart) (e : ParseEntry) :
  Forall (fun p => isOption p = true -> type p = Argument /\ truthy (value p) = true) parts ->
  Forall (fun p => isOption p = true -> type p = Argument /\ truthy (value p) = true)
    (classifyEntry parts e).
Proof.
  intros Hparts.
  assert (Hdash : forall s d, startsWith s (String d "") = true -> truthy s = true).
  { intros s d H. unfold startsWith in H. apply prefix_spec in H as [tail ->]. reflexivity. }
  destruct e as [s|op|pattern|text]; simpl; [| | |exact Hparts].
  - destruct (startsWith s "--") eqn:Hlong.
    { apply Forall_app; split; [exact Hparts|]. constructor; [|constructor].
      intros _. split; [reflexivity|]. simpl.
      unfold startsWith in Hlong. apply prefix_spec in Hlong as [tail ->]. reflexivity. }
    destruct (startsWith s "-" && (1 <? String.length s) && negb (matchDashDigit s))
      eqn:Hshort.
    { apply Forall_app; split; [exact Hparts|]. constructor; [|constructor].
      intros _. split; [reflexivity|]. simpl.
      apply andb_true_iff in Hshort as [Hshort _].
      apply andb_true_iff in Hshort as [Hshort _]. now apply (Hdash s "-"%char). }
    apply Forall_app; split; [exact Hparts|]. constructor; [|constructor]. discriminate.
  - apply Forall_app; split; [exact Hparts|]. constructor; [|constructor]. discriminate.
  - apply Forall_app; split; [exact Hparts|]. constructor; [|constructor]. discriminate.
Qed.

(** An option is an Argument, and its text is not empty. *)
Lemma classify_options (entries : list ParseEntry) (p : CommandPart) :
  In p (classify entries) -> isOption p = true ->
  type p = Argument /\ truthy (value p) = true.
Proof.
  assert (H : forall parts,
            Forall (fun p => isOption p = true -> type p = Argument /\ truthy (value p) = true)
              parts ->
            Forall (fun p => isOption p = true -> type p = Argument /\ truthy (value p) = true)
              (fold_left classifyEntry entries parts)).
  { induction entries as [|e entries IH]; intros parts Hparts; simpl; [exact Hparts|].
    apply IH. now apply classifyEntry_options. }
  intros Hin. specialize (H [] (Forall_nil _)).
  rewrite Forall_forall in H. now apply H.
Qed.

(** After a part that is not an Operator, no part is a Command. *)
Lemma kindsOK_no_later_command (parts : list CommandPart) (i j : nat) (p q : CommandPart) :
  kindsOK parts ->
  nth_error parts i = Some p -> isOperator p = false ->
  i < j -> nth_error parts j = Some q ->
  type q <> Command.
Proof.
  intros Hkinds Hp Hop Hij Hq.
  destruct (nth_error_split parts j Hq) as [before [after [Hparts Hlen]]].
  destruct (isOperator q) eqn:Hopq.
  { unfold isOperator in Hopq. destruct (type q); discriminate. }
  rewrite (Hkinds before q after Hparts Hopq).
  assert (Hin : In p before).
  { subst parts. rewrite nth_error_app1 in Hp by lia. eapply nth_error_In; eassumption. }
  assert (Hall : forallb isOperator before = false).
  { destruct (forallb isOperator before) eqn:Hall; [|reflexivity].
    rewrite forallb_forall in Hall. rewrite (Hall p Hin) in Hop. discriminate. }
  rewrite Hall. discriminate.
Qed.

(** C6, as the code has it.  In the layout of a command that is longer than
    [maxWidth], with [flagsOnNewLine], the loop reaches every long or short
    option.  When the current line has visible content there and the option
    prints as a non-empty text, the output holds the current line followed by
    the continuation marker and, on the next line, the indent followed by the
    option (and by what is appended to that line later).  When the current
    line is empty or blank, the option is appended to it after a space and no
    line is pushed. *)
Theorem C6_flags_on_new_line
    (chalk : Chalk) (parse : Tokenizer) (command : string) (options : PrettifyOptions)
    (parts : list CommandPart) (i : nat) (p : CommandPart) :
  parseCommand parse command = Ok parts ->
  (widthOf options < len command)%Z ->
  flagsOf options = true ->
  nth_error parts i = Some p ->
  isOption p = true ->
  exists st lines,
    visits chalk (widthOf options) (indentOf options) (flagsOf options) (plainOf options)
      parts i st /\
    prettifyCommand chalk parse command options = join newline lines /\
    (truthy (trim (currentLine st)) = true ->
     truthy (rendered chalk (plainOf options) p) = true ->
     exists tail after,
       lines = result st
               ++ (currentLine st +++ continuation)
                  :: (indentOf options +++ rendered chalk (plainOf options) p +++ tail)
                  :: after) /\
    (truthy (trim (currentLine st)) = false ->
     loopBody chalk (widthOf options) (indentOf options) (flagsOf options) (plainOf options)
       parts i st
     = (setLine st (currentLine st +++ " " +++ rendered chalk (plainOf options) p), i)).
Proof.
  intros Hparse Hlong Hflags Hp Hopt.
  assert (Hclass : exists entries, parts = classify entries).
  { unfold parseCommand in Hparse. destruct (parse command) as [entries|]; [|discriminate].
    exists entries. simpl in Hparse. congruence. }
  destruct Hclass as [entries ->].
  destruct (classify_options entries p (nth_error_In _ _ Hp) Hopt) as [Harg _].
  destruct (loop_visits chalk (widthOf options) (indentOf options) (flagsOf options)
              (plainOf options) _ i p Hp) as [st Hvisit]; [right; now left|].
  pose proof (loopBody_flag chalk (widthOf options) (indentOf options) (flagsOf options)
                (plainOf options) _ i st p Hp Harg Hflags Hopt) as Hbody.
  cbv zeta in Hbody.
  exists st, (layoutLines chalk options (classify entries)).
  split; [exact Hvisit|].
  split; [exact (prettifyCommand_layout chalk parse command options _ i p Hparse Hp Hlong)|].
  split; [|intros Hblank; now rewrite Hblank in Hbody].
  intros Hvisible Hshown. rewrite Hvisible in Hbody.
  destruct (layoutLines_after_turn chalk options _ i st _ Hvisit Hbody) as [rest ->].
  match goal with |- context [finalLines ?s] =>
    destruct (finalLines_started (result st ++ [currentLine st +++ continuation])
                (indentOf options +++ rendered chalk (plainOf options) p) s)
      as [tail [after Hdone]]
  end.
  - apply (loop_started chalk (widthOf options) (indentOf options) (flagsOf options)
             (plainOf options) (classify entries) _ _ i).
    + intros j q Hij Hq.
      apply (kindsOK_no_later_command (classify entries) i j p q); auto.
      * apply kindsOK_classify.
      * unfold isOperator. now rewrite Harg.
    + simpl. lia.
    + left. split; [reflexivity|]. exists "". simpl. now rewrite append_empty_r.
  - now apply truthy_append_r.
  - exists tail, after. rewrite Hdone, <- app_assoc, append_assoc. reflexivity.
Qed.

Lemma C6_witness :
  parseCommand sampleParse "cmd --a -b x" =
    Ok [part Command "cmd" false false; part Argument "--a" true false;
        part Argument "-b" false true; part Argument "x" false false] /\
  (widthOf flagsPlain < len "cmd --a -b x")%Z /\
  flagsOf flagsPlain = true /\
  exists st lines,
    visits ansiChalk 5 "  " true true
      [part Command "cmd" false false; part Argument "--a" true false;
       part Argument "-b" false true; part Argument "x" false false] 2 st /\
    prettifyCommand ansiChalk sampleParse "cmd --a -b x" flagsPlain = join newline lines /\
    (truthy (trim (currentLine st)) = true ->
     exists tail after,
       lines = result st ++ (currentLine st +++ continuation) :: ("  " +++ "-b" +++ tail) :: after).
Proof.
  split; [reflexivity|]. split; [reflexivity|]. split; [reflexivity|].
  destruct (C6_flags_on_new_line ansiChalk sampleParse "cmd --a -b x" flagsPlain
              [part Command "cmd" false false; part Argument "--a" true false;
               part Argument "-b" false true; part Argument "x" false false]
              2 (part Argument "-b" false true) eq_refl eq_refl eq_refl eq_refl eq_refl)
    as [st [lines [Hvisit [Hpretty [Hown _]]]]].
  exists st, lines. split; [exact Hvisit|]. split; [exact Hpretty|].
  intros Hvisible. now apply Hown.
Defined.

(** C6 as the specification states it fails on a command that starts with an
    option: the current line is empty when the loop reaches [--a], so the
    option is appended after a space, on the first line of the output; no
    line starts with the indent followed by [--a]. *)
Lemma C6_counterexample :
  (widthOf flagsPlain < len "--a --b --c --d")%Z /\
  prettifyCommand plainChalk sampleParse "--a --b --c --d" flagsPlain =
    join newline [" --a" +++ continuation; "  --b" +++ continuation;
                  "  --c" +++ continuation; "  --d"] /\
  ~ onOwnLine "  " "--a" [" --a" +++ continuation; "  --b" +++ continuation;
                          "  --c" +++ continuation; "  --d"].
Proof.
  split; [reflexivity|]. split; [reflexivity|].
  intros [before [previous [tail [after H]]]].
  destruct before as [|l1 [|l2 [|l3 [|l4 before]]]]; simpl in H;
    try discriminate H; try (injection H; intros; discriminate).
  destruct before; discriminate H.
Qed.

(** ** Without colours *)

Lemma layoutLoop_plain (chalk chalk' : Chalk) (maxWidth : Z) (indent : string)
    (flagsOnNewLine : bool) (parts : list CommandPart) (n : nat) (c : nat * LayoutState) :
  layoutLoop chalk maxWidth indent flagsOnNewLine true parts n c =
  layoutLoop chalk' maxWidth indent flagsOnNewLine true parts n c.
Proof.
  revert c; induction n as [|n IH]; intros c; [reflexivity|].
  cbn [layoutLoop]. destruct (fst c <? List.length parts); [|reflexivity].
  rewrite IH. reflexivity.
Qed.

Lemma join_built (P : string -> Prop) (sep : string) (lines : list string) :
  P "" -> P sep -> (forall a b, P a -> P b -> P (a +++ b)) ->
  Forall P lines -> P (join sep lines).
Proof.
  intros Hempty Hsep Happ. induction 1 as [|l lines Hl Hlines IH]; [exact Hempty|].
  destruct lines as [|l' lines]; [exact Hl|].
  change (P (l +++ sep +++ join sep (l' :: lines))). auto.
Qed.

Lemma finalLines_built (P : string -> Prop) (st : LayoutState) :
  built P st -> Forall P (finalLines st).
Proof.
  intros [Hres Hcur]. unfold finalLines. destruct (truthy (currentLine st)); [|exact Hres].
  apply Forall_app. split; [exact Hres|]. now constructor.
Qed.

(** C7. With [disableColors], [prettifyCommand] never calls a styling
    function of [chalk]: its result is the same for every [chalk].  Every code
    unit of the result comes from the command, from the value of a part, from
    the indent, or is a space, a backslash or a newline; so the result holds
    no escape character when the command, the values of the parts and the
    indent hold none. *)
Theorem C7_no_styling_without_colours
    (chalk : Chalk) (parse : Tokenizer) (command : string) (options : PrettifyOptions) :
  disableColors options = Some true ->
  (forall chalk',
     prettifyCommand chalk' parse command options =
     prettifyCommand chalk parse command options) /\
  (forall c, In c (chars (prettifyCommand chalk parse command options)) ->
             plainSource parse command options c) /\
  (~ In escape (chars command) ->
   ~ In escape (chars (indentOf options)) ->
   (forall parts p, parseCommand parse command = Ok parts -> In p parts ->
                    ~ In escape (chars (value p))) ->
   ~ In escape (chars (prettifyCommand chalk parse command options))).
Proof.
  intros Hplain.
  assert (Hsource : forall c, In c (chars (prettifyCommand chalk parse command options)) ->
                              plainSource parse command options c).
  { unfold prettifyCommand. rewrite Hplain. cbn [withDefault].
    destruct (parseCommand parse command) as [parts|error] eqn:Hparse; simpl;
      [|intros c Hc; now left].
    destruct (List.length parts =? 0); [intros c Hc; now left|].
    destruct (len command <=? withDefault 80 (maxWidth options))%Z;
      [intros c Hc; now left|].
    set (P := fun s : string => forall c, In c (chars s) -> plainSource parse command options c).
    assert (Happ : forall a b, P a -> P b -> P (a +++ b)).
    { intros a b Ha Hb c Hc. rewrite chars_append in Hc.
      apply in_app_or in Hc as [Hc | Hc]; auto. }
    assert (Hempty : P "") by (intros c []).
    assert (Hspace : P " ").
    { intros c [<- | []]. right; right; right; now left. }
    assert (Hcont : P continuation).
    { intros c [<- | [<- | []]]; right; right; right; [now left | right; now left]. }
    assert (Hnl : P newline).
    { intros c [<- | []]. right; right; right; right; now right. }
    assert (Hind : P (withDefault "  " (indent options))).
    { intros c Hc. right; right; now left. }
    apply (join_built P); auto. apply finalLines_built.
    apply (loop_built chalk _ _ _ true parts P); auto.
    - intros q Hq c Hc. right; left. now exists parts, q.
    - split; [constructor | exact Hempty]. }
  split; [|split; [exact Hsource|]].
  - intros chalk'. unfold prettifyCommand. rewrite Hplain. cbn [withDefault].
    destruct (parseCommand parse command) as [parts|error]; simpl; [|reflexivity].
    destruct (List.length parts =? 0); [reflexivity|].
    destruct (len command <=? withDefault 80 (maxWidth options))%Z; [reflexivity|].
    now rewrite (layoutLoop_plain chalk' chalk).
  - intros Hcommand Hindent Hvalues Hin.
    destruct (Hsource escape Hin) as [H | [[parts [p [Hparse [Hp H]]]] | [H | [H | [H | H]]]]];
      try discriminate H; try contradiction.
    now apply (Hvalues parts p).
Qed.

Lemma C7_witness :
  disableColors flagsPlain = Some true /\
  (forall chalk',
     prettifyCommand chalk' sampleParse "cmd --a -b x" flagsPlain =
     prettifyCommand ansiChalk sampleParse "cmd --a -b x" flagsPlain) /\
  (forall c, In c (chars (prettifyCommand ansiChalk sampleParse "cmd --a -b x" flagsPlain)) ->
             plainSource sampleParse "cmd --a -b x" flagsPlain c).
Proof.
  split; [reflexivity|].
  destruct (C7_no_styling_without_colours ansiChalk sampleParse "cmd --a -b x" flagsPlain
              eq_refl) as [Hsame [Hsource _]].
  split; [exact Hsame | exact Hsource].
Defined.

(** * Further properties of the code *)

(** ** What the parts keep of the entries *)

Lemma classifyEntry_text (parts : list CommandPart) (e : ParseEntry) :
  map value (classifyEntry parts e) = map value parts ++ entryText e /\
  map isOperator (classifyEntry parts e) = map isOperator parts ++ entryIsOperator e.
Proof.
  destruct e as [s|op|pattern|text]; simpl;
    rewrite ?map_app, ?app_nil_r; try (split; reflexivity).
  destruct (startsWith s "--"); [rewrite !map_app; split; reflexivity|].
  destruct (startsWith s "-" && (1 <? String.length s) && negb (matchDashDigit s));
    rewrite !map_app; split; try reflexivity.
  simpl. now destruct ((List.length parts =? 0)
                       || forallb (fun p => PartType_eqb (type p) Operator) parts).
Qed.

Lemma classify_text (entries : list ParseEntry) :
  map value (classify entries) = flat_map entryText entries /\
  map isOperator (classify entries) = flat_map entryIsOperator entries.
Proof.
  unfold classify.
  assert (H : forall parts,
            map value (fold_left classifyEntry entries parts)
            = map value parts ++ flat_map entryText entries /\
            map isOperator (fold_left classifyEntry entries parts)
            = map isOperator parts ++ flat_map entryIsOperator entries).
  { induction entries as [|e entries IH]; intros parts; simpl.
    - now rewrite !app_nil_r.
    - destruct (IH (classifyEntry parts e)) as [Hv Ho].
      destruct (classifyEntry_text parts e) as [Hv' Ho'].
      rewrite Hv, Ho, Hv', Ho', <- !app_assoc. split; reflexivity. }
  apply (H []).
Qed.

(** X1. The parts hold the entries of the tokenizer in their order, one part
    for each word, operator and glob, and none for a comment: the value of a
    part is the word or the operator, and the word [glob] for a glob, whose
    pattern is not kept. *)
Theorem X1_parts_keep_the_entries
    (parse : Tokenizer) (command : string) (entries : list ParseEntry) :
  parse command = Ok entries ->
  exists parts,
    parseCommand parse command = Ok parts /\
    map value parts = flat_map entryText entries /\
    map isOperator parts = flat_map entryIsOperator entries.
Proof.
  intros H. exists (classify entries). split; [now apply parseCommand_Ok|].
  apply classify_text.
Qed.

Lemma X1_witness :
  sampleParse "cat 'a b' | wc -l" = Ok [Word "cat"; Word "a b"; Op "|"; Word "wc"; Word "-l"] /\
  exists parts,
    parseCommand sampleParse "cat 'a b' | wc -l" = Ok parts /\
    map value parts = ["cat"; "a b"; "|"; "wc"; "-l"] /\
    map isOperator parts = [false; false; true; false; false].
Proof.
  split; [reflexivity|].
  apply (X1_parts_keep_the_entries sampleParse "cat 'a b' | wc -l"
           [Word "cat"; Word "a b"; Op "|"; Word "wc"; Word "-l"] eq_refl).
Defined.

(** ** The option flags *)

Lemma classifyEntry_flagsOK (parts : list CommandPart) (e : ParseEntry) :
  Forall flagsOK parts -> Forall flagsOK (classifyEntry parts e).
Proof.
  intros Hparts. unfold flagsOK.
  destruct e as [s|op|pattern|text]; simpl; [| | |exact Hparts].
  - destruct (startsWith s "--") eqn:Hlong.
    { apply Forall_app; split; [exact Hparts|]. constructor; [|constructor]. simpl.
      repeat split; try congruence; try discriminate.
      intros [_ [H _]]. congruence. }
    destruct (startsWith s "-" && (1 <? String.length s) && negb (matchDashDigit s))
      eqn:Hshort.
    { apply andb_true_iff in Hshort as [Hshort Hdigit].
      apply andb_true_iff in Hshort as [Hdash Hlen].
      apply negb_true_iff in Hdigit. apply Nat.ltb_lt in Hlen.
      apply Forall_app; split; [exact Hparts|]. constructor; [|constructor]. simpl.
      repeat split; try congruence; try discriminate; try assumption.
      intros [_ H]. congruence. }
    apply Forall_app; split; [exact Hparts|]. constructor; [|constructor]. simpl.
    repeat split; try discriminate.
    + intros [_ H]. congruence.
    + intros [_ [_ [Hdash [Hlen Hdigit]]]]. apply Nat.ltb_lt in Hlen.
      rewrite Hdash, Hlen, Hdigit in Hshort. discriminate.
  - apply Forall_app; split; [exact Hparts|]. constructor; [|constructor]. simpl.
    repeat split; try discriminate; intros [H _]; congruence.
  - apply Forall_app; split; [exact Hparts|]. constructor; [|constructor]. simpl.
    repeat split; try discriminate; intros [H _]; congruence.
Qed.

Lemma classify_flagsOK (entries : list ParseEntry) : Forall flagsOK (classify entries).
Proof.
  unfold classify.
  assert (H : forall parts, Forall flagsOK parts ->
                            Forall flagsOK (fold_left classifyEntry entries parts)).
  { induction entries as [|e entries IH]; intros parts Hparts; simpl; [exact Hparts|].
    apply IH. now apply classifyEntry_flagsOK. }
  apply H. constructor.
Qed.

(** X2. The two flags of a part say how its value starts.  A part that is not
    an Operator is a long option exactly when its value starts with two
    dashes, and a short option exactly when it starts with one dash only, is
    longer than the dash and has no digit after it; an Operator has neither
    flag, whatever its value; no part has both flags, and a Command has
    none. *)
Theorem X2_option_flags
    (parse : Tokenizer) (command : string) (parts : list CommandPart) (p : CommandPart) :
  parseCommand parse command = Ok parts ->
  In p parts ->
  (isLongOption p = true <->
   type p <> Operator /\ startsWith (value p) "--" = true) /\
  (isShortOption p = true <->
   type p <> Operator /\ startsWith (value p) "--" = false /\
   startsWith (value p) "-" = true /\ 1 < String.length (value p) /\
   matchDashDigit (value p) = false) /\
  (type p = Command -> isOption p = false).
Proof.
  unfold parseCommand. destruct (parse command) as [entries|error]; simpl; [|discriminate].
  intros [= <-] Hin. pose proof (classify_flagsOK entries) as H.
  rewrite Forall_forall in H. exact (H p Hin).
Qed.

Lemma X2_witness :
  parseCommand sampleParse "tar -x --file a -" =
    Ok [part Command "tar" false false; part Argument "-x" false true;
        part Argument "--file" true false; part Argument "a" false false;
        part Argument "-" false false] /\
  (isShortOption (part Argument "-" false false) = true <->
   type (part Argument "-" false false) <> Operator /\
   startsWith "-" "--" = false /\ startsWith "-" "-" = true /\
   1 < String.length "-" /\ matchDashDigit "-" = false).
Proof.
  split; [reflexivity|].
  apply (X2_option_flags sampleParse "tar -x --file a -" _ (part Argument "-" false false)
           eq_refl).
  simpl. tauto.
Defined.

(** X3. The parts hold at most one Command: only Operators come before it,
    no part after it is a Command, and it is not an option. *)
Theorem X3_at_most_one_command
    (parse : Tokenizer) (command : string) (parts before after : list CommandPart)
    (p : CommandPart) :
  parseCommand parse command = Ok parts ->
  parts = before ++ p :: after ->
  type p = Command ->
  forallb isOperator before = true /\
  Forall (fun q => type q <> Command) after /\
  isOption p = false.
Proof.
  unfold parseCommand. destruct (parse command) as [entries|error]; simpl; [|discriminate].
  intros [= <-] Hparts Hcommand.
  pose proof (kindsOK_classify entries) as Hkinds.
  assert (Hop : isOperator p = false) by (unfold isOperator; now rewrite Hcommand).
  pose proof (Hkinds before p after Hparts Hop) as Hp. rewrite Hcommand in Hp.
  destruct (forallb isOperator before) eqn:Hbefore; [|discriminate].
  destruct (isOption p) eqn:Hopt; [discriminate|].
  split; [reflexivity|]. split; [|reflexivity].
  apply Forall_forall. intros q Hq.
  apply in_split in Hq as [after1 [after2 ->]].
  destruct (isOperator q) eqn:Hopq.
  { unfold isOperator in Hopq. destruct (type q); discriminate. }
  rewrite (Hkinds (before ++ p :: after1) q after2).
  - rewrite forallb_app. simpl. rewrite Hop, andb_false_r. discriminate.
  - rewrite Hparts, <- app_assoc. reflexivity.
  - exact Hopq.
Qed.

Lemma X3_witness :
  parseCommand sampleParse "make all && ls" =
    Ok ([] ++ part Command "make" false false
           :: [part Argument "all" false false; part Operator "&&" false false;
               part Argument "ls" false false]) /\
  Forall (fun q => type q <> Command)
    [part Argument "all" false false; part Operator "&&" false false;
     part Argument "ls" false false].
Proof.
  split; [reflexivity|].
  apply (X3_at_most_one_command sampleParse "make all && ls" _ []
           [part Argument "all" false false; part Operator "&&" false false;
            part Argument "ls" false false]
           (part Command "make" false false) eq_refl eq_refl eq_refl).
Defined.

(** ** Highlighting *)

Lemma matchHttp_slash (s : string) : matchHttp s = true -> includes s "/" = true.
Proof.
  unfold matchHttp. rewrite orb_true_iff, !prefix_spec, includes_spec.
  intros [[rest ->] | [rest ->]].
  - exists "http:", (String "/" rest). reflexivity.
  - exists "https:", (String "/" rest). reflexivity.
Qed.

(** X4. [applyHighlighting] returns the value of the part as it is or in one
    of six styles; the underlined style of URLs is never among them, because
    a value that starts with [http://] or [https://] holds a slash and takes
    the style of paths before the URL test is reached. *)
Theorem X4_highlighting_styles (chalk : Chalk) (p : CommandPart) :
  In (applyHighlighting chalk p)
     [value p; cyan_bold chalk (value p); yellow_bold chalk (value p);
      green chalk (value p); blue chalk (value p); magenta chalk (value p);
      white chalk (value p)] /\
  (level chalk <> 0 -> type p = Argument -> isOption p = false ->
   matchHttp (value p) = true ->
   applyHighlighting chalk p = blue chalk (value p)).
Proof.
  split.
  - unfold applyHighlighting. destruct (level chalk =? 0); [now left|].
    destruct (type p); [right; now left | | right; right; now left].
    destruct (isLongOption p); [do 3 right; now left|].
    destruct (isShortOption p); [do 3 right; now left|].
    destruct (includes (value p) "/" || includes (value p) (String backslash ""))
      eqn:Hpath; [do 4 right; now left|].
    destruct (includes (value p) "="); [do 5 right; now left|].
    destruct (matchHttp (value p)) eqn:Hhttp; [|do 6 right; now left].
    apply matchHttp_slash in Hhttp. rewrite Hhttp in Hpath. discriminate Hpath.
  - intros Hlevel Harg Hopt Hhttp. unfold applyHighlighting.
    destruct (Nat.eqb_spec (level chalk) 0); [contradiction|].
    rewrite Harg. apply orb_false_elim in Hopt as [-> ->].
    now rewrite (matchHttp_slash _ Hhttp).
Qed.

Lemma X4_witness :
  applyHighlighting ansiChalk (part Argument "https://example.org" false false) =
  styled "34" "39" "https://example.org".
Proof.
  apply (X4_highlighting_styles ansiChalk (part Argument "https://example.org" false false));
    [discriminate | reflexivity | reflexivity | reflexivity].
Defined.

(** ** The decision helper, the preview and the batch *)

Lemma prettifyCommand_within_width
    (chalk : Chalk) (parse : Tokenizer) (command : string) (options : PrettifyOptions) :
  (len command <= widthOf options)%Z ->
  prettifyCommand chalk parse command options = command.
Proof.
  intros Hshort. unfold prettifyCommand, parseCommand, widthOf in *.
  destruct (parse command) as [parsed|error]; simpl; [|reflexivity].
  destruct (List.length (classify parsed) =? 0); [reflexivity|].
  destruct (Z.leb_spec (len command) (withDefault 80%Z (maxWidth options)));
    [reflexivity | lia].
Qed.

(** X6. A command that the decision helper declines is left as it is by
    [prettifyCommand], whenever the threshold of the helper does not exceed
    [maxWidth] (both are 80 when left out). *)
Theorem X6_declined_command_unchanged
    (chalk : Chalk) (parse : Tokenizer) (command : string) (threshold : option Z)
    (options : PrettifyOptions) :
  shouldPrettifyCommand command threshold = false ->
  (withDefault 80 threshold <= widthOf options)%Z ->
  prettifyCommand chalk parse command options = command.
Proof.
  intros Hno Hle. apply prettifyCommand_within_width.
  unfold shouldPrettifyCommand in Hno. repeat apply orb_false_elim in Hno as [Hno _].
  rewrite Z.gtb_ltb in Hno. apply Z.ltb_ge in Hno. lia.
Qed.

Lemma X6_witness :
  shouldPrettifyCommand "git status --short" None = false /\
  (withDefault 80 None <= widthOf noOptions)%Z /\
  prettifyCommand ansiChalk sampleParse "git status --short" noOptions =
  "git status --short".
Proof.
  split; [reflexivity|]. split; [discriminate|].
  apply (X6_declined_command_unchanged ansiChalk sampleParse "git status --short" None
           noOptions eq_refl).
  discriminate.
Defined.

(** X7. The [pretty] field of a preview, when it is defined, is the command
    itself as long as the command is not longer than [maxWidth]: a short
    command that holds an operator is flagged by the helper and shown
    unchanged. *)
Theorem X7_preview_of_a_short_command
    (chalk : Chalk) (parse : Tokenizer) (command : string) (options : PreviewOptions)
    (shown : string) :
  pretty (getCommandPreview chalk parse command options) = Some shown ->
  (len command <= withDefault 80 (pv_maxWidth options))%Z ->
  shown = command.
Proof.
  unfold getCommandPreview. cbn [pretty]. intros Hpretty Hshort.
  destruct (withDefault false (showPretty options)
            && shouldPrettifyCommand command (Some (withDefault 80%Z (pv_maxWidth options))));
    [|discriminate].
  injection Hpretty as <-. now apply prettifyCommand_within_width.
Qed.

Lemma X7_witness :
  pretty (getCommandPreview ansiChalk sampleParse "ls | wc"
            {| showPretty := Some true; pv_maxWidth := None; pv_indent := None;
               pv_flagsOnNewLine := None; pv_disableColors := None |}) = Some "ls | wc" /\
  "ls | wc" = "ls | wc".
Proof.
  split; [reflexivity|].
  apply (X7_preview_of_a_short_command ansiChalk sampleParse "ls | wc"
           {| showPretty := Some true; pv_maxWidth := None; pv_indent := None;
              pv_flagsOnNewLine := None; pv_disableColors := None |} "ls | wc" eq_refl).
  discriminate.
Defined.

(** X8. The decision helper is monotone in its threshold: a command that is
    flagged under a threshold is flagged under every smaller one. *)
Theorem X8_decision_monotone (command : string) (low high : Z) :
  (low <= high)%Z ->
  shouldPrettifyCommand command (Some high) = true ->
  shouldPrettifyCommand command (Some low) = true.
Proof.
  intros Hle. unfold shouldPrettifyCommand. cbn [withDefault].
  rewrite !orb_true_iff, !Z.gtb_ltb, !Z.ltb_lt. intuition lia.
Qed.

Lemma X8_witness :
  (20 <= 80)%Z /\
  shouldPrettifyCommand "cmd --a --b --c --d" (Some 80%Z) = true /\
  shouldPrettifyCommand "cmd --a --b --c --d" (Some 20%Z) = true.
Proof.
  split; [discriminate|]. split; [reflexivity|].
  apply (X8_decision_monotone "cmd --a --b --c --d" 20 80); [discriminate | reflexivity].
Defined.

Lemma contains_pipe (s : string) : includes s "||" = true -> includes s "|" = true.
Proof.
  rewrite !includes_spec. intros [before [after ->]].
  exists before, (String "|" after). reflexivity.
Qed.

(** X9. The test for [||] never decides: a command that holds [||] holds [|],
    so the helper answers the same without that test. *)
Theorem X9_double_pipe_test_is_redundant (command : string) (threshold : option Z) :
  shouldPrettifyCommand command threshold =
  (len command >? withDefault 80 threshold)%Z
  || includes command "&&" || includes command ";" || includes command "|"
  || (3 <? List.length (matchAllLong command)).
Proof.
  unfold shouldPrettifyCommand.
  destruct (includes command "||") eqn:Hor.
  - rewrite (contains_pipe _ Hor). now rewrite !orb_true_r.
  - now rewrite orb_false_r.
Qed.

(** X10. [prettifyCommands] formats the commands one by one: the result has
    the length of the input, its element at an index is the command at that
    index formatted with the shared options, and a batch of commands that are
    all within [maxWidth] is returned as it is. *)
Theorem X10_batch
    (chalk : Chalk) (parse : Tokenizer) (commands : list string) (options : PrettifyOptions) :
  List.length (prettifyCommands chalk parse commands options) = List.length commands /\
  (forall i,
     nth_error (prettifyCommands chalk parse commands options) i =
     option_map (fun cmd => prettifyCommand chalk parse cmd options) (nth_error commands i)) /\
  (Forall (fun cmd => (len cmd <= widthOf options)%Z) commands ->
   prettifyCommands chalk parse commands options = commands).
Proof.
  unfold prettifyCommands. split; [apply length_map|]. split; [intros i; apply nth_error_map|].
  induction 1 as [|cmd commands Hcmd _ IH]; simpl; [reflexivity|].
  now rewrite IH, (prettifyCommand_within_width chalk parse cmd options Hcmd).
Qed.

(** ** The lines of the layout *)






Ltac split_conditions :=
  repeat match goal with
         | |- context [match nth_error ?l ?i with _ => _ end] =>
             destruct (nth_error l i) eqn:?
         | |- context [if ?b then _ else _] => destruct b eqn:?
         end.


Section Lines.

Variable chalk : Chalk.
Variable maxWidth : Z.
Variable indent : string.
Variable flagsOnNewLine disableColors : bool.
Variable parts : list CommandPart.

Let body := loopBody chalk maxWidth indent flagsOnNewLine disableColors parts.
Let turn := loopTurn chalk maxWidth indent flagsOnNewLine disableColors parts.
Let loop := layoutLoop chalk maxWidth indent flagsOnNewLine disableColors parts.
Let shown := rendered chalk disableColors.






End Lines.

(** ** The text of the layout *)

Lemma strip_append (a b : string) : strip (a +++ b) = strip a +++ strip b.
Proof.
  induction a as [|c a IH]; [reflexivity|]. simpl. rewrite IH.
  now destruct (isGlue c).
Qed.

Lemma concatAll_app (a b : list string) : concatAll (a ++ b) = concatAll a +++ concatAll b.
Proof.
  induction a as [|x a IH]; [reflexivity|]. simpl. now rewrite IH, append_assoc.
Qed.

Lemma strip_join (lines : list string) :
  strip (join newline lines) = strip (concatAll lines).
Proof.
  induction lines as [|l lines IH]; [reflexivity|].
  destruct lines as [|l' lines]; [simpl; now rewrite append_empty_r|].
  change (join newline (l :: l' :: lines)) with (l +++ newline +++ join newline (l' :: lines)).
  change (concatAll (l :: l' :: lines)) with (l +++ concatAll (l' :: lines)).
  now rewrite !strip_append, IH.
Qed.

Lemma finalLines_flat (st : LayoutState) : concatAll (finalLines st) = flat st.
Proof.
  unfold finalLines, flat. destruct (currentLine st) as [|c cur]; simpl.
  - now rewrite append_empty_r.
  - rewrite concatAll_app. simpl. now rewrite append_empty_r.
Qed.

Lemma firstn_succ {A : Type} (l : list A) (i : nat) (x : A) :
  nth_error l i = Some x -> firstn (S i) l = firstn i l ++ [x].
Proof.
  revert i; induction l as [|y l IH]; intros [|i] H; try discriminate.
  - injection H as ->. reflexivity.
  - simpl in H. simpl. f_equal. now apply IH.
Qed.

Lemma flat_push (st : LayoutState) (x y : string) :
  strip (flat (push st (currentLine st +++ x) y)) = strip (flat st) +++ strip x +++ strip y.
Proof.
  unfold flat, push; cbn [result currentLine]. rewrite concatAll_app. simpl.
  now rewrite !strip_append, append_empty_r, !append_assoc.
Qed.

Lemma flat_append (st : LayoutState) (x : string) :
  strip (flat (setLine st (currentLine st +++ x))) = strip (flat st) +++ strip x.
Proof.
  unfold flat, setLine; cbn [result currentLine].
  now rewrite !strip_append, !append_assoc.
Qed.

Lemma textOfParts_succ (parts : list CommandPart) (i : nat) (p : CommandPart) :
  nth_error parts i = Some p ->
  textOfParts parts (S i) = textOfParts parts i +++ strip (value p).
Proof.
  intros Hp. unfold textOfParts.
  rewrite (firstn_succ parts i p Hp), map_app, concatAll_app.
  simpl. now rewrite strip_append, append_empty_r.
Qed.

Section Content.

Variable chalk : Chalk.
Variable maxWidth : Z.
Variable indent : string.
Variable flagsOnNewLine disableColors : bool.
Variable parts : list CommandPart.

(** [text i] is the text that the parts before index [i] are to leave, from
    the index [start] on. *)
Variable start : nat.
Variable text : nat -> string.

Hypothesis plain : forall p, rendered chalk disableColors p = value p.
Hypothesis blank : strip indent = "".
Hypothesis text_succ :
  forall i p, start <= i -> nth_error parts i = Some p ->
              text (S i) = text i +++ strip (value p).
Hypothesis command_first :
  forall i p, start <= i -> nth_error parts i = Some p -> type p = Command -> i = 0.

Let body := loopBody chalk maxWidth indent flagsOnNewLine disableColors parts.
Let turn := loopTurn chalk maxWidth indent flagsOnNewLine disableColors parts.
Let loop := layoutLoop chalk maxWidth indent flagsOnNewLine disableColors parts.

(** A body adds the values of the parts that it consumes to the text of the
    state, and nothing else but white space and backslashes. *)
Lemma loopBody_content (i : nat) (st : LayoutState) (p : CommandPart) :
  start <= i ->
  nth_error parts i = Some p ->
  (type p = Command -> currentLine st = "") ->
  strip (flat st) = text i ->
  strip (flat (fst (body i st))) = text (S (snd (body i st))).
Proof.
  intros Hi Hp Hcommand Hst.
  assert (Hnext : forall q, nth_error parts (S i) = Some q ->
                            text (S (S i)) = text (S i) +++ strip (value q)).
  { intros q Hq. apply text_succ; [lia | exact Hq]. }
  destruct (type p) eqn:Ht.
  - unfold body.
    rewrite (loopBody_Command chalk maxWidth indent flagsOnNewLine disableColors parts
               i st p Hp Ht). cbv zeta. cbn [fst snd].
    rewrite (text_succ i p Hi Hp), <- Hst, plain.
    unfold flat, setLine; cbn [result currentLine]. rewrite (Hcommand eq_refl).
    now rewrite !strip_append, append_empty_r.
  - unfold body, loopBody. rewrite Hp, Ht. cbv zeta. split_conditions; cbn [fst snd];
      rewrite ?Nat.add_1_r in *;
      repeat match goal with
             | H : nth_error parts (S i) = Some ?q |- context [text (S (S i))] =>
                 rewrite (Hnext q H)
             end;
      rewrite (text_succ i p Hi Hp), <- Hst, ?flat_push, ?flat_append, ?flat_push,
        ?strip_append, ?plain, ?blank;
      cbn [strip continuation isGlue]; simpl;
      rewrite ?append_empty_r, ?append_assoc; reflexivity.
  - unfold body.
    rewrite (loopBody_Operator chalk maxWidth indent flagsOnNewLine disableColors parts
               i st p Hp Ht). cbv zeta.
    split_conditions; cbn [fst snd];
      rewrite (text_succ i p Hi Hp), <- Hst, ?flat_push, ?flat_append, ?strip_append, ?plain;
      simpl; rewrite ?append_empty_r, ?append_assoc; reflexivity.
Qed.

Lemma loop_content (n : nat) (c : nat * LayoutState) :
  start <= fst c ->
  (fst c = 0 -> currentLine (snd c) = "") ->
  strip (flat (snd c)) = text (fst c) ->
  strip (flat (snd (loop n c))) = text (fst (loop n c)).
Proof.
  revert c; induction n as [|n IH]; intros c Hfrom Hstart Hc; [exact Hc|].
  change (loop (S n) c)
    with (if fst c <? List.length parts then loop n (turn c) else c).
  destruct (Nat.ltb_spec (fst c) (List.length parts)) as [Hi|]; [|exact Hc].
  destruct (nth_error parts (fst c)) as [p|] eqn:Hp;
    [|apply nth_error_None in Hp; lia].
  pose proof (turn_index chalk maxWidth indent flagsOnNewLine disableColors parts c) as Hlt.
  fold turn in Hlt.
  apply IH; [lia | intros H0; lia |].
  unfold turn, loopTurn. fold body.
  assert (Hb := loopBody_content (fst c) (snd c) p Hfrom Hp).
  destruct (body (fst c) (snd c)) as [st' i']. cbn [fst snd] in *. apply Hb; [|exact Hc].
  intros Ht. apply Hstart. now apply (command_first (fst c) p).
Qed.

End Content.

(** ** Colours and flags that change nothing *)

Lemma rendered_level0 (chalk : Chalk) (disableColors : bool) (p : CommandPart) :
  level chalk = 0 -> rendered chalk disableColors p = value p.
Proof.
  intros H. unfold rendered, applyHighlighting. rewrite H. now destruct disableColors.
Qed.

Lemma loopBody_level0 (chalk : Chalk) (maxWidth : Z) (indent : string)
    (flagsOnNewLine disableColors : bool) (parts : list CommandPart)
    (i : nat) (st : LayoutState) :
  level chalk = 0 ->
  loopBody chalk maxWidth indent flagsOnNewLine disableColors parts i st =
  loopBody chalk maxWidth indent flagsOnNewLine true parts i st.
Proof.
  intros H. unfold loopBody. destruct (nth_error parts i) as [p|]; [|reflexivity].
  destruct (nth_error parts (i + 1)) as [q|];
    rewrite ?(rendered_level0 chalk disableColors _ H); reflexivity.
Qed.

Lemma layoutLoop_level0 (chalk : Chalk) (maxWidth : Z) (indent : string)
    (flagsOnNewLine disableColors : bool) (parts : list CommandPart)
    (n : nat) (c : nat * LayoutState) :
  level chalk = 0 ->
  layoutLoop chalk maxWidth indent flagsOnNewLine disableColors parts n c =
  layoutLoop chalk maxWidth indent flagsOnNewLine true parts n c.
Proof.
  intros H. revert c; induction n as [|n IH]; intros c; [reflexivity|].
  cbn [layoutLoop]. destruct (fst c <? List.length parts); [|reflexivity].
  unfold loopTurn. now rewrite IH, (loopBody_level0 chalk _ _ _ disableColors _ _ _ H).
Qed.

(** X5. When [chalk] reports no colour support (level 0), [prettifyCommand]
    returns what it returns with [disableColors]: the option changes nothing
    then. *)
Theorem X5_no_colour_support
    (chalk : Chalk) (parse : Tokenizer) (command : string) (options : PrettifyOptions) :
  level chalk = 0 ->
  prettifyCommand chalk parse command options =
  prettifyCommand chalk parse command (setDisableColors true options).
Proof.
  intros H. unfold prettifyCommand, setDisableColors.
  cbn [maxWidth indent flagsOnNewLine disableColors withDefault].
  destruct (parseCommand parse command) as [parts|error]; simpl; [|reflexivity].
  destruct (List.length parts =? 0); [reflexivity|].
  destruct (len command <=? withDefault 80 (maxWidth options))%Z; [reflexivity|].
  now rewrite (layoutLoop_level0 chalk _ _ _ (withDefault false (disableColors options))
                 _ _ _ H).
Qed.

Lemma X5_witness :
  level plainChalk = 0 /\
  prettifyCommand plainChalk sampleParse "make && ls" narrow =
  prettifyCommand plainChalk sampleParse "make && ls" (setDisableColors true narrow).
Proof.
  split; [reflexivity|].
  apply (X5_no_colour_support plainChalk sampleParse "make && ls" narrow). reflexivity.
Defined.

Lemma loopBody_without_flags (chalk : Chalk) (maxWidth : Z) (indent : string)
    (b b' disableColors : bool) (parts : list CommandPart) (i : nat) (st : LayoutState) :
  Forall (fun p => isOption p = false) parts ->
  loopBody chalk maxWidth indent b disableColors parts i st =
  loopBody chalk maxWidth indent b' disableColors parts i st.
Proof.
  intros Hparts. unfold loopBody. destruct (nth_error parts i) as [p|] eqn:Hp; [|reflexivity].
  rewrite Forall_forall in Hparts. specialize (Hparts p (nth_error_In _ _ Hp)).
  apply orb_false_elim in Hparts as [Hlong Hshort]. rewrite Hlong, Hshort.
  cbn [orb andb]. now rewrite !andb_false_r.
Qed.

Lemma layoutLoop_without_flags (chalk : Chalk) (maxWidth : Z) (indent : string)
    (b b' disableColors : bool) (parts : list CommandPart) (n : nat) (c : nat * LayoutState) :
  Forall (fun p => isOption p = false) parts ->
  layoutLoop chalk maxWidth indent b disableColors parts n c =
  layoutLoop chalk maxWidth indent b' disableColors parts n c.
Proof.
  intros H. revert c; induction n as [|n IH]; intros c; [reflexivity|].
  cbn [layoutLoop]. destruct (fst c <? List.length parts); [|reflexivity].
  unfold loopTurn. now rewrite IH, (loopBody_without_flags chalk _ _ b b' _ _ _ _ H).
Qed.

(** X14. On a command without long or short options, [flagsOnNewLine] has no
    effect: the result is the same whatever the option is set to. *)
Theorem X14_flags_mode_without_flags
    (chalk : Chalk) (parse : Tokenizer) (command : string) (options : PrettifyOptions)
    (parts : list CommandPart) (b : bool) :
  parseCommand parse command = Ok parts ->
  Forall (fun p => isOption p = false) parts ->
  prettifyCommand chalk parse command (setFlagsOnNewLine b options) =
  prettifyCommand chalk parse command options.
Proof.
  intros Hparse Hparts. unfold prettifyCommand, setFlagsOnNewLine.
  cbn [maxWidth indent flagsOnNewLine disableColors withDefault]. rewrite Hparse. simpl.
  destruct (List.length parts =? 0); [reflexivity|].
  destruct (len command <=? withDefault 80 (maxWidth options))%Z; [reflexivity|].
  now rewrite (layoutLoop_without_flags chalk _ _ b
                 (withDefault false (flagsOnNewLine options)) _ _ _ _ Hparts).
Qed.

Lemma X14_witness :
  parseCommand sampleParse "cp a b && ls" =
    Ok [part Command "cp" false false; part Argument "a" false false;
        part Argument "b" false false; part Operator "&&" false false;
        part Argument "ls" false false] /\
  prettifyCommand ansiChalk sampleParse "cp a b && ls" (setFlagsOnNewLine true narrow) =
  prettifyCommand ansiChalk sampleParse "cp a b && ls" narrow.
Proof.
  split; [reflexivity|].
  apply (X14_flags_mode_without_flags ansiChalk sampleParse "cp a b && ls" narrow _ true
           eq_refl).
  repeat constructor.
Defined.

(** ** The output as a whole *)






Lemma kindsOK_command_first (parts : list CommandPart) (first : CommandPart) :
  kindsOK parts ->
  nth_error parts 0 = Some first -> isOperator first = false ->
  forall i p, nth_error parts i = Some p -> type p = Command -> i = 0.
Proof.
  intros Hkinds Hfirst Hop i p Hp Hcommand.
  destruct i as [|i]; [reflexivity|]. exfalso.
  apply (kindsOK_no_later_command parts 0 (S i) first p Hkinds Hfirst Hop); auto. lia.
Qed.

(** X11. In the layout of a long command that does not start with an
    Operator, printed without colours and with an indent of white space, no
    text of the parts is lost, repeated or moved: the output without its
    white space and backslashes is the values of the parts, in their order,
    without theirs. *)
Theorem X11_text_of_the_parts_is_kept
    (chalk : Chalk) (parse : Tokenizer) (command : string) (options : PrettifyOptions)
    (parts : list CommandPart) (first : CommandPart) :
  parseCommand parse command = Ok parts ->
  (widthOf options < len command)%Z ->
  plainOf options = true \/ level chalk = 0 ->
  strip (indentOf options) = "" ->
  nth_error parts 0 = Some first ->
  isOperator first = false ->
  strip (prettifyCommand chalk parse command options) =
  strip (concatAll (map value parts)).
Proof.
  intros Hparse Hlong Hplain Hblank Hfirst Hop.
  assert (Hkinds : kindsOK parts).
  { unfold parseCommand in Hparse. destruct (parse command) as [entries|]; [|discriminate].
    simpl in Hparse. injection Hparse as <-. apply kindsOK_classify. }
  rewrite (prettifyCommand_layout chalk parse command options parts 0 first Hparse Hfirst Hlong).
  rewrite strip_join. unfold layoutLines. rewrite finalLines_flat.
  rewrite (loop_content chalk (widthOf options) (indentOf options) (flagsOf options)
             (plainOf options) parts 0 (textOfParts parts)).
  - unfold textOfParts. rewrite firstn_all2; [reflexivity|].
    apply layoutLoop_exits.
  - intros p. destruct Hplain as [-> | H]; [reflexivity | now apply rendered_level0].
  - exact Hblank.
  - intros i p _. apply textOfParts_succ.
  - intros i p _. now apply (kindsOK_command_first parts first).
  - simpl. lia.
  - reflexivity.
  - reflexivity.
Qed.

Lemma X11_witness :
  parseCommand sampleParse "tar --file 'my archive.tar' -v && ls" =
    Ok [part Command "tar" false false; part Argument "--file" true false;
        part Argument "my archive.tar" false false; part Argument "-v" false true;
        part Operator "&&" false false; part Argument "ls" false false] /\
  (widthOf narrowPlain < len "tar --file 'my archive.tar' -v && ls")%Z /\
  strip (prettifyCommand ansiChalk sampleParse "tar --file 'my archive.tar' -v && ls"
           narrowPlain) = "tar--filemyarchive.tar-v&&ls".
Proof.
  split; [reflexivity|]. split; [reflexivity|].
  apply (X11_text_of_the_parts_is_kept ansiChalk sampleParse
           "tar --file 'my archive.tar' -v && ls" narrowPlain _
           (part Command "tar" false false) eq_refl eq_refl (or_introl eq_refl)
           eq_refl eq_refl eq_refl).
Defined.

(** X15. When the parts start with an Operator that does not break the line
    and a Command follows it, the layout of a long command drops that
    Operator: the Command replaces the line that held it.  Without colours
    and with an indent of white space, the output without its white space and
    backslashes is the values of the parts after the first one. *)
Theorem X15_leading_operator_is_dropped
    (chalk : Chalk) (parse : Tokenizer) (command : string) (options : PrettifyOptions)
    (parts rest : list CommandPart) (o c : CommandPart) :
  parseCommand parse command = Ok parts ->
  parts = o :: c :: rest ->
  type o = Operator ->
  breaksLine o = false ->
  type c = Command ->
  (widthOf options < len command)%Z ->
  plainOf options = true \/ level chalk = 0 ->
  strip (indentOf options) = "" ->
  strip (prettifyCommand chalk parse command options) =
  strip (concatAll (map value (c :: rest))).
Proof.
  intros Hparse Hparts Ho Hbreak Hc Hlong Hplain Hblank.
  assert (Hkinds : kindsOK parts).
  { unfold parseCommand in Hparse. destruct (parse command) as [entries|]; [|discriminate].
    simpl in Hparse. injection Hparse as <-. apply kindsOK_classify. }
  assert (Hshown : forall p, rendered chalk (plainOf options) p = value p).
  { intros p. destruct Hplain as [-> | H]; [reflexivity | now apply rendered_level0]. }
  assert (H0 : nth_error parts 0 = Some o) by now rewrite Hparts.
  assert (H1 : nth_error parts 1 = Some c) by now rewrite Hparts.
  rewrite (prettifyCommand_layout chalk parse command options parts 0 o Hparse H0 Hlong).
  rewrite strip_join. unfold layoutLines. rewrite finalLines_flat.
  pose proof (layoutLoop_exits chalk (widthOf options) (indentOf options) (flagsOf options)
                (plainOf options) parts) as Hexit. cbv zeta in Hexit.
  set (st1 := setLine (snd initial) (currentLine (snd initial) +++ " " +++ value o)).
  assert (H2 : layoutLoop chalk (widthOf options) (indentOf options) (flagsOf options)
                 (plainOf options) parts 2 initial = (2, setLine st1 (value c))).
  { assert (T1 : loopTurn chalk (widthOf options) (indentOf options) (flagsOf options)
                   (plainOf options) parts initial = (1, st1)).
    { unfold loopTurn. change (fst initial) with 0.
      rewrite (loopBody_Operator chalk _ _ _ _ parts 0 _ o H0 Ho).
      unfold breaksLine in Hbreak. apply orb_false_elim in Hbreak as [Hbreak ->].
      now rewrite Hbreak, Hshown. }
    assert (T2 : loopTurn chalk (widthOf options) (indentOf options) (flagsOf options)
                   (plainOf options) parts (1, st1) = (2, setLine st1 (value c))).
    { unfold loopTurn. cbn [fst snd].
      rewrite (loopBody_Command chalk _ _ _ _ parts 1 _ c H1 Hc). now rewrite Hshown. }
    cbn [layoutLoop]. rewrite T1. change (fst initial) with 0. cbn [fst].
    replace (0 <? List.length parts) with true by now rewrite Hparts.
    replace (1 <? List.length parts) with true by now rewrite Hparts.
    exact T2. }
  replace (List.length parts) with (2 + List.length rest) in * by (rewrite Hparts; reflexivity).
  rewrite loop_add, H2 in *.
  rewrite (loop_content chalk (widthOf options) (indentOf options) (flagsOf options)
             (plainOf options) parts 2 (fun i => textOfParts (c :: rest) (i - 1))).
  - unfold textOfParts. rewrite firstn_all2; [reflexivity|]. simpl List.length. lia.
  - exact Hshown.
  - exact Hblank.
  - intros i p Hi Hp. destruct i as [|i]; [lia|]. rewrite Hparts in Hp. simpl in Hp.
    replace (S (S i) - 1) with (S (S i - 1)) by lia.
    apply textOfParts_succ. now replace (S i - 1) with i by lia.
  - intros i p Hi Hp Hcommand. exfalso.
    apply (kindsOK_no_later_command parts 1 i c p Hkinds H1);
      [unfold isOperator; now rewrite Hc | lia | exact Hp | exact Hcommand].
  - simpl. lia.
  - simpl. discriminate.
  - unfold flat, textOfParts. simpl. now rewrite append_empty_r.
Qed.

Lemma X15_witness :
  parseCommand groupParse "( cd /tmp && ls" =
    Ok (part Operator "(" false false
        :: part Command "cd" false false
        :: [part Argument "/tmp" false false; part Operator "&&" false false;
            part Argument "ls" false false]) /\
  (widthOf narrowPlain < len "( cd /tmp && ls")%Z /\
  prettifyCommand ansiChalk groupParse "( cd /tmp && ls" narrowPlain =
    join newline ["cd" +++ continuation; "  /tmp &&"; " ls"] /\
  strip (prettifyCommand ansiChalk groupParse "( cd /tmp && ls" narrowPlain) = "cd/tmp&&ls".
Proof.
  split; [reflexivity|]. split; [reflexivity|]. split; [reflexivity|].
  apply (X15_leading_operator_is_dropped ansiChalk groupParse "( cd /tmp && ls" narrowPlain
           _ _ (part Operator "(" false false) (part Command "cd" false false)
           eq_refl eq_refl eq_refl eq_refl eq_refl eq_refl (or_introl eq_refl) eq_refl).
Defined.

(** ** Running the model *)

(** The command of the documentation comment of [prettifyCommand], under the
    default options and without colour support. *)
Example prettify_chained_commands :
  prettifyCommand plainChalk sampleParse
    "npm run build && npm run test --coverage --verbose && npm run deploy --env=production"
    noOptions =
  join newline ["npm run build &&"; " npm run test --coverage --verbose &&";
                " npm run deploy --env=production"].
Proof. reflexivity. Qed.

(** The same command with every flag on a line of its own. *)
Example prettify_flags_on_new_lines :
  prettifyCommand plainChalk sampleParse
    "npm run build && npm run test --coverage --verbose && npm run deploy --env=production"
    {| maxWidth := None; indent := None; flagsOnNewLine := Some true;
       disableColors := None |} =
  join newline ["npm run build &&"; " npm run test" +++ continuation;
                "  --coverage" +++ continuation; "  --verbose &&";
                " npm run deploy" +++ continuation; "  --env=production"].
Proof. reflexivity. Qed.

(** The value of a long option moves to the next line with the width. *)
Example prettify_option_value :
  prettifyCommand plainChalk sampleParse "tar --file archive.tar --verbose"
    {| maxWidth := Some 12%Z; indent := None; flagsOnNewLine := None;
       disableColors := None |} =
  join newline ["tar --file" +++ continuation; "  archive.tar" +++ continuation;
                "  --verbose"].
Proof. reflexivity. Qed.

(** With colours, the command is wrapped in styling markers. *)
Example prettify_with_colours :
  prettifyCommand ansiChalk sampleParse "ls ; pwd" narrow =
  join newline [styled "36" "39" (styled "1" "22" "ls") +++ styled "33" "39" (styled "1" "22" ";");
                " " +++ styled "37" "39" "pwd"].
Proof. reflexivity. Qed.

Example preview_of_a_pipe :
  getCommandPreview plainChalk sampleParse "ls | wc"
    {| showPretty := Some true; pv_maxWidth := None; pv_indent := None;
       pv_flagsOnNewLine := None; pv_disableColors := None |} =
  {| original := "ls | wc"; pretty := Some "ls | wc"; shouldPrettify := true |}.
Proof. reflexivity. Qed.

Example matches_of_the_global_search :
  matchAllLong "cmd --a --b_1 ---c --d- -- e--f" = ["--a"; "--b_1"; "--c"; "--d"; "--f"].
Proof. reflexivity. Qed.
